(** * count_extinction_grid: counting grid points inside the JASMINE footprint

    A shallow embedding of [input_files/count_extinction_grid.py].  The script
    reads the lines of a text file, skips the lines that start with [#], splits
    every other line on the single space character, converts the first two
    fields with Python's [float], and counts the lines whose two numbers lie
    strictly inside the box (-3.1, 3.1) x (-1.8, 1.8).  It ends by printing one
    sentence that holds the count.

    Modelling choices.
    - A Python [str] is a [string]: a sequence of characters with code points
      below 256.  Text with other characters is outside the model.
    - A Python [float] is an IEEE 754 binary64 number, [spec_float] of the
      Standard Library at precision 53 and maximal exponent 1024.
    - A Python [int] is a [Z].
    - The script's effects (the global [count], what was written to standard
      output, an uncaught exception) are threaded through a small state and
      exception monad [M].
    - The import of numpy, which the script does not use, is taken to
      succeed. *)

From Stdlib Require Import ZArith List String Ascii Bool Lia Permutation.
From Stdlib Require Import SpecFloat Decimal DecimalString DecimalPos DecimalZ.
Import ListNotations.

#[local] Open Scope string_scope.
#[local] Open Scope Z_scope.

(** ** Characters *)

(** The line feed, Python's ["\n"]. *)
Definition LF : ascii := "010"%char.
Definition HT : ascii := "009"%char.
Definition NUL : ascii := "000"%char.

Definition nl : string := String LF EmptyString.

Definition code (c : ascii) : Z := Z.of_N (N_of_ascii c).

Definition is_digit (c : ascii) : bool := (48 <=? code c) && (code c <=? 57).

Definition digit_value (c : ascii) : Z := code c - 48.

(** The characters [float] skips around a number: the six ASCII blanks
    (tab, line feed, vertical tab, form feed, carriage return, space) and,
    among the code points from 128 to 255, the two Unicode blanks U+0085 and
    U+00A0, which [float] turns into spaces before it parses.  The separators
    U+001C to U+001F are not skipped. *)
Definition is_space (c : ascii) : bool :=
  ((9 <=? code c) && (code c <=? 13)) || (code c =? 32)
  || (code c =? 133) || (code c =? 160).

(** [Py_TOLOWER]: the lower case of an ASCII letter, any other character
    as it is. *)
Definition to_lower (c : ascii) : ascii :=
  if (65 <=? code c) && (code c <=? 90)
  then ascii_of_N (Z.to_N (code c + 32))
  else c.

(** ** The methods of [str] the script calls *)

(** [s.startswith(p)]. *)
Definition startswith (s p : string) : bool := prefix p s.

(** [s.split(sep)] for a separator of one character: the fields between the
    occurrences of [sep], empty fields kept, so that a string without [sep]
    (the empty string too) has exactly one field. *)
Fixpoint split (sep : ascii) (s : string) : list string :=
  match s with
  | EmptyString => [EmptyString]
  | String c s' =>
      if Ascii.eqb c sep then EmptyString :: split sep s'
      else match split sep s' with
           | f :: fs => String c f :: fs
           | [] => [String c EmptyString]
           end
  end.

(** The longest prefix of [s] whose characters satisfy [p], and the rest. *)
Fixpoint span (p : ascii -> bool) (s : string) : string * string :=
  match s with
  | EmptyString => (EmptyString, EmptyString)
  | String c s' =>
      if p c then let (a, b) := span p s' in (String c a, b)
      else (EmptyString, s)
  end.

(** [file.readlines()] on the text of a file, newlines already translated to
    line feeds: every line keeps its line feed, and a last line without one
    is a line too. *)
Fixpoint readlines (text : string) : list string :=
  match text with
  | EmptyString => []
  | String c rest =>
      if Ascii.eqb c LF then nl :: readlines rest
      else match readlines rest with
           | [] => [String c EmptyString]
           | l :: ls => String c l :: ls
           end
  end.

(** ** Python's [float] on a string *)

Definition prec : Z := 53.
Definition emax : Z := 1024.

(** A binary64 number. *)
Definition float : Type := spec_float.

(** The binary64 number nearest to [(-1)^neg * m * 10^e] for [0 <= m], ties
    to the even mantissa; an infinity when that overflows.  The quotient of
    [m * 10^max(e,0)] by [10^max(-e,0)] is cut at the precision (the integer
    quotient and where the remainder lies) and rounded as the Standard
    Library's IEEE division does. *)
Definition binary64_of_decimal (neg : bool) (m e : Z) : float :=
  if m =? 0 then S754_zero neg
  else
    let n := m * 10 ^ Z.max e 0 in
    let d := 10 ^ Z.max (- e) 0 in
    let '(q, e', loc) := SFdiv_core_binary prec emax n 0 d 0 in
    binary_round_aux prec emax neg q e' loc.

(** The number a string of decimal digits denotes. *)
Fixpoint Z_of_digits_acc (acc : Z) (s : string) : Z :=
  match s with
  | EmptyString => acc
  | String c s' => Z_of_digits_acc (10 * acc + digit_value c) s'
  end.

Definition Z_of_digits (s : string) : Z := Z_of_digits_acc 0 s.

(** Underscores are allowed between two digits and nowhere else; [float]
    checks that and removes them before it parses.  [prev] is the character
    before [s]. *)
Fixpoint remove_underscores (prev : ascii) (s : string) : option string :=
  match s with
  | EmptyString => if Ascii.eqb prev "_" then None else Some EmptyString
  | String c s' =>
      if Ascii.eqb c "_" then
        if is_digit prev then remove_underscores c s' else None
      else if Ascii.eqb prev "_" && negb (is_digit c) then None
      else option_map (String c) (remove_underscores c s')
  end.

(** An optional sign: whether it is [-], and the rest. *)
Definition parse_sign (s : string) : bool * string :=
  match s with
  | String "-" s' => (true, s')
  | String "+" s' => (false, s')
  | _ => (false, s)
  end.

(** An optional exponent [e] or [E], optional sign, at least one digit.
    Without a digit nothing is consumed. *)
Definition parse_exponent (s : string) : Z * string :=
  match s with
  | String c s1 =>
      if Ascii.eqb c "e" || Ascii.eqb c "E" then
        let (neg, s2) := parse_sign s1 in
        let (ds, s3) := span is_digit s2 in
        match ds with
        | EmptyString => (0, s)
        | _ => ((if neg then - Z_of_digits ds else Z_of_digits ds), s3)
        end
      else (0, s)
  | EmptyString => (0, s)
  end.

(** A decimal number at the start of [s]: optional sign, digits, optional
    point and digits, at least one digit in all, optional exponent.  Gives
    the number and the rest of [s], or [None] when no number starts [s]. *)
Definition parse_decimal (s : string) : option (float * string) :=
  let (neg, s1) := parse_sign s in
  let (ip, s2) := span is_digit s1 in
  let (fp, s3) :=
    match s2 with
    | String "." t => span is_digit t
    | _ => (EmptyString, s2)
    end in
  match ip ++ fp with
  | EmptyString => None
  | ds =>
      let (ex, s4) := parse_exponent s3 in
      Some (binary64_of_decimal neg (Z_of_digits ds)
              (ex - Z.of_nat (String.length fp)), s4)
  end.

(** [s] starts with [p], letters compared without case ([p] in lower case):
    the rest of [s] after it. *)
Fixpoint match_nocase (p s : string) : option string :=
  match p, s with
  | EmptyString, _ => Some s
  | String a p', String c s' =>
      if Ascii.eqb (to_lower c) a then match_nocase p' s' else None
  | String _ _, EmptyString => None
  end.

(** [inf], [infinity] or [nan] with an optional sign, in any case. *)
Definition parse_inf_or_nan (s : string) : option (float * string) :=
  let (neg, s1) := parse_sign s in
  match match_nocase "inf" s1 with
  | Some s2 =>
      match match_nocase "inity" s2 with
      | Some s3 => Some (S754_infinity neg, s3)
      | None => Some (S754_infinity neg, s2)
      end
  | None =>
      match match_nocase "nan" s1 with
      | Some s2 => Some (S754_nan, s2)
      | None => None
      end
  end.

Definition skip_spaces (s : string) : string := snd (span is_space s).

(** [float(s)]: [Some x] when [s] is a number [float] accepts, blanks around
    it skipped, and [None] when Python raises [ValueError]. *)
Definition float_of_string (s : string) : option float :=
  match remove_underscores NUL s with
  | None => None
  | Some s0 =>
      let s1 := skip_spaces s0 in
      let parsed :=
        match parse_decimal s1 with
        | Some r => Some r
        | None => parse_inf_or_nan s1
        end in
      match parsed with
      | Some (x, rest) =>
          match skip_spaces rest with
          | EmptyString => Some x
          | _ => None
          end
      | None => None
      end
  end.

(** The float literals of the script and Python's comparisons of floats.
    A comparison with a NaN is false. *)
Definition lit_3_1 : float := binary64_of_decimal false 31 (-1).
Definition lit_1_8 : float := binary64_of_decimal false 18 (-1).

Definition float_neg (x : float) : float := SFopp x.
Definition float_lt (x y : float) : bool := SFltb x y.
Definition float_gt (x y : float) : bool := SFltb y x.
Definition float_eq (x y : float) : bool := SFeqb x y.

(** A zero or a finite number: neither an infinity nor a NaN. *)
Definition is_finite (x : float) : bool :=
  match x with
  | S754_zero _ | S754_finite _ _ _ => true
  | _ => false
  end.

(** The exact value of a finite binary64 number, times 2^1074: an integer,
    since no exponent is below [emin = -1074].  Both zeros give 0. *)
Definition scaled (x : float) : Z :=
  match x with
  | S754_finite s m e =>
      (if s then - Z.pos m else Z.pos m) * 2 ^ (e - emin prec emax)
  | _ => 0
  end.

(** ** The interpreter state and its monad *)

Inductive exn : Type :=
| ValueError
| IndexError
| NameError
| OSError.

(** The global [count] (unbound until the script assigns it) and the text
    written to standard output so far. *)
Record state : Type := mkState { count : option Z; stdout : string }.

Inductive outcome (A : Type) : Type :=
| Return (a : A)
| Raise (e : exn).

Arguments Return {A} a.
Arguments Raise {A} e.

(** A statement runs in a state, and either returns or raises; both leave a
    state behind, so what was printed before an exception stays printed. *)
Definition M (A : Type) : Type := state -> outcome A * state.

Definition ret {A} (a : A) : M A := fun st => (Return a, st).

Definition bind {A B} (m : M A) (k : A -> M B) : M B :=
  fun st =>
    match m st with
    | (Return a, st') => k a st'
    | (Raise e, st') => (Raise e, st')
    end.

Definition raise {A} (e : exn) : M A := fun st => (Raise e, st).

Declare Scope monad_scope.
Delimit Scope monad_scope with monad.
Notation "x <- m ;; k" := (bind m (fun x => k))
  (at level 61, m at next level, right associativity) : monad_scope.
Notation "m ;; k" := (bind m (fun _ => k))
  (at level 61, right associativity) : monad_scope.
#[local] Open Scope monad_scope.

Definition get_count : M Z :=
  fun st =>
    match count st with
    | Some c => (Return c, st)
    | None => (Raise NameError, st)
    end.

Definition set_count (c : Z) : M unit :=
  fun st => (Return tt, mkState (Some c) (stdout st)).

(** [print(s)]: [s] and a line feed, appended to standard output. *)
Definition print (s : string) : M unit :=
  fun st => (Return tt, mkState (count st) (stdout st ++ s ++ nl)).

(** [xs[i]]. *)
Definition getitem (xs : list string) (i : nat) : M string :=
  match nth_error xs i with
  | Some x => ret x
  | None => raise IndexError
  end.

(** [float(s)]. *)
Definition to_float (s : string) : M float :=
  match float_of_string s with
  | Some x => ret x
  | None => raise ValueError
  end.

(** [str(n)] of an [int]. *)
Definition str_of_int (n : Z) : string := NilZero.string_of_int (Z.to_int n).

(** [for x in xs: body]. *)
Fixpoint for_each {A} (xs : list A) (body : A -> M unit) : M unit :=
  match xs with
  | [] => ret tt
  | x :: xs' => body x ;; for_each xs' body
  end.

(** ** The script *)

(** The test of line 11. *)
Definition in_footprint (l b : float) : bool :=
  float_gt l (float_neg lit_3_1) && float_lt l lit_3_1
  && (float_gt b (float_neg lit_1_8) && float_lt b lit_1_8).

(** Lines 7 to 12: what the loop does with one line. *)
Definition body (line : string) : M unit :=
  if startswith line "#" then ret tt
  else
    let line_s := split " " line in
    f0 <- getitem line_s 0 ;;
    l <- to_float f0 ;;
    f1 <- getitem line_s 1 ;;
    b <- to_float f1 ;;
    if in_footprint l b
    then (c <- get_count ;; set_count (c + 1))
    else ret tt.

Definition message (c : Z) : string :=
  "There are " ++ str_of_int c
  ++ " grid points within the JASMINE extended footprint".

(** The script once the lines of the file are read: lines 3 to 14. *)
Definition program (lines : list string) : M unit :=
  set_count 0 ;;
  for_each lines body ;;
  c <- get_count ;;
  print (message c).

(** The whole script; [file] is the text of [EJK_G12_S20_LR.dat], or
    [None] when it cannot be opened. *)
Definition main (file : option string) : M unit :=
  match file with
  | Some text => program (readlines text)
  | None => set_count 0 ;; raise OSError
  end.

(** A fresh interpreter: nothing bound, nothing printed. *)
Definition fresh : state := mkState None EmptyString.

(** ** Notions the statements below use *)

(** A data line: one the loop does not skip. *)
Definition is_data (line : string) : bool := negb (startswith line "#").

(** What one line adds to the count, as a function of the line alone: the
    increment, or the exception lines 8 to 10 raise on it. *)
Definition line_delta (line : string) : outcome Z :=
  if startswith line "#" then Return 0
  else
    match nth_error (split " " line) 0 with
    | None => Raise IndexError
    | Some f0 =>
        match float_of_string f0 with
        | None => Raise ValueError
        | Some l =>
            match nth_error (split " " line) 1 with
            | None => Raise IndexError
            | Some f1 =>
                match float_of_string f1 with
                | None => Raise ValueError
                | Some b => Return (if in_footprint l b then 1 else 0)
                end
            end
        end
    end.

(** A line the loop gets through: a comment, or a line whose first two
    fields, split on the space, are numbers for [float]. *)
Definition well_formed (line : string) : bool :=
  startswith line "#"
  || match split " " line with
     | f0 :: f1 :: _ =>
         match float_of_string f0, float_of_string f1 with
         | Some _, Some _ => true
         | _, _ => false
         end
     | _ => false
     end.

(** The sum of the increments of the lines, failing lines counted as 0. *)
Fixpoint tally (lines : list string) : Z :=
  match lines with
  | [] => 0
  | line :: rest =>
      match line_delta line with
      | Return d => d + tally rest
      | Raise _ => tally rest
      end
  end.

(** The number of data lines. *)
Definition data_lines (lines : list string) : Z :=
  Z.of_nat (List.length (filter is_data lines)).

(** The characters for which Python's [str.isspace] holds, below 256. *)
Definition is_blank_char (c : ascii) : bool :=
  is_space c || ((28 <=? code c) && (code c <=? 31)).

Fixpoint all_chars (p : ascii -> bool) (s : string) : bool :=
  match s with
  | EmptyString => true
  | String c s' => p c && all_chars p s'
  end.

(** A blank line: empty, or blanks only (its line feed is one of them). *)
Definition is_blank (line : string) : bool := all_chars is_blank_char line.

(** The fields of a line when "whitespace-separated" is read as Python's
    [str.split()] without an argument reads it: the maximal runs of
    characters that are not blanks.  The script does not call this; it is
    here to state what splitting on any whitespace would give. *)
Fixpoint whitespace_separated_fields (s : string) : list string :=
  match s with
  | EmptyString => []
  | String c s' =>
      if is_blank_char c then whitespace_separated_fields s'
      else
        match s' with
        | EmptyString => [String c EmptyString]
        | String c' _ =>
            if is_blank_char c'
            then String c EmptyString :: whitespace_separated_fields s'
            else match whitespace_separated_fields s' with
                 | f :: fs => String c f :: fs
                 | [] => [String c EmptyString]
                 end
        end
  end.

(** Two lines agree on what the loop reads of them: both start with [#] or
    neither does, and data lines have the same first two fields when split
    on the space. *)
Definition same_l_b (x y : string) : Prop :=
  startswith x "#" = startswith y "#"
  /\ (startswith x "#" = false ->
      firstn 2 (split " " x) = firstn 2 (split " " y)).

(** The number of line feeds in a text. *)
Fixpoint count_LF (s : string) : nat :=
  match s with
  | EmptyString => O
  | String c s' => ((if Ascii.eqb c LF then 1 else 0) + count_LF s')%nat
  end.

(** A line the script counts: a data line whose first two fields are numbers
    in the footprint. *)
Definition counted (line : string) : bool :=
  negb (startswith line "#")
  && match split " " line with
     | f0 :: f1 :: _ =>
         match float_of_string f0, float_of_string f1 with
         | Some l, Some b => in_footprint l b
         | _, _ => false
         end
     | _ => false
     end.

(** [c in s]. *)
Fixpoint contains (c : ascii) (s : string) : bool :=
  match s with
  | EmptyString => false
  | String a s' => Ascii.eqb a c || contains c s'
  end.

(** *** Notions for the decimal numbers of the fields *)

(** Where the fraction [r / D] lies in a unit: at 0, below, at or above the
    half. *)
Definition loc_of (r D : Z) : location :=
  if r =? 0 then loc_Exact else loc_Inexact (2 * r ?= D).

(** A shift record that stands for the number [N / D]: its mantissa is the
    integer part, its two bits say where the fraction lies. *)
Definition represents (mrs : shr_record) (N D : Z) : Prop :=
  0 <= N /\ 0 < D
  /\ shr_m mrs = N / D
  /\ loc_of_shr_record mrs = loc_of (N mod D) D.

(** A number without the sign bit, or a NaN. *)
Definition sign_clear (x : float) : Prop :=
  match x with
  | S754_zero s | S754_infinity s | S754_finite s _ _ => s = false
  | S754_nan => True
  end.

(** [m * 10^e <= num / 2^k], in integers. *)
Definition within (m e num k : Z) : bool :=
  m * 10 ^ Z.max e 0 * 2 ^ k <=? num * 10 ^ Z.max (- e) 0.

(** The decimal number at the start of [s], as [parse_decimal] reads it,
    before it is rounded: the sign, the digits as an integer, the power of
    ten, and the rest of [s]. *)
Definition parse_decimal_exact (s : string) : option (bool * Z * Z * string) :=
  let (neg, s1) := parse_sign s in
  let (ip, s2) := span is_digit s1 in
  let (fp, s3) :=
    match s2 with
    | String "." t => span is_digit t
    | _ => (EmptyString, s2)
    end in
  match ip ++ fp with
  | EmptyString => None
  | ds =>
      let (ex, s4) := parse_exponent s3 in
      Some (neg, Z_of_digits ds, ex - Z.of_nat (String.length fp), s4)
  end.

(** The decimal number [float] reads in a string: [Some (neg, m, e)] for
    [(-1)^neg * m * 10^e], and [None] when the string is no decimal number
    ([float] then raises, or gives an infinity or a NaN). *)
Definition decimal_of_string (s : string) : option (bool * Z * Z) :=
  match remove_underscores NUL s with
  | None => None
  | Some s0 =>
      match parse_decimal_exact (skip_spaces s0) with
      | Some (neg, m, e, rest) =>
          match skip_spaces rest with
          | EmptyString => Some (neg, m, e)
          | _ => None
          end
      | None => None
      end
  end.

(** A line the script counts, by the decimal numbers of its first two
    fields: a data line with [|l| <= 13961158844848537 / 2^52] and
    [|b| <= 16212958658533785 / 2^53]. *)
Definition counted_exact (line : string) : bool :=
  negb (startswith line "#")
  && match split " " line with
     | f0 :: f1 :: _ =>
         match decimal_of_string f0, decimal_of_string f1 with
         | Some (_, ml, el), Some (_, mb, eb) =>
             within ml el 13961158844848537 52
             && within mb eb 16212958658533785 53
         | _, _ => false
         end
     | _ => false
     end.

(** * Properties *)

(** ** The models of [split], [readlines] and the float literals *)

Lemma split_nonempty (sep : ascii) (s : string) : split sep s <> [].
Proof.
  destruct s as [|c s]; cbn [split]; [discriminate|].
  destruct (Ascii.eqb c sep); [discriminate|].
  destruct (split sep s); discriminate.
Qed.

(** X1: [split] undoes [join]: the fields of [s.split(sep)], joined by [sep],
    are [s] again; no field holds [sep]; and there is one field more than
    there are separators in [s], so at least one. *)
Theorem split_join (sep : ascii) (s : string) :
  concat (String sep EmptyString) (split sep s) = s
  /\ Forall (fun f => all_chars (fun c => negb (Ascii.eqb c sep)) f = true)
       (split sep s)
  /\ List.length (split sep s)
     = S (List.length
            (filter (fun c => Ascii.eqb c sep) (list_ascii_of_string s))).
Proof.
  induction s as [|c s (IHj & IHf & IHl)];
    cbn [split list_ascii_of_string filter].
  - repeat split. repeat constructor.
  - pose proof (split_nonempty sep s) as Hne.
    destruct (Ascii.eqb c sep) eqn:Hc.
    + apply Ascii.eqb_eq in Hc. subst c.
      destruct (split sep s) as [|f fs] eqn:Hs; [congruence|].
      repeat split.
      * change (String sep (concat (String sep EmptyString) (f :: fs))
                = String sep s).
        now rewrite IHj.
      * constructor; [reflexivity|exact IHf].
      * cbn [List.length]. now rewrite <- IHl.
    + destruct (split sep s) as [|f fs] eqn:Hs; [congruence|].
      repeat split.
      * rewrite <- IHj. now destruct fs.
      * inversion IHf as [|? ? Hf Hfs]; subst.
        constructor; [|exact Hfs]. cbn [all_chars]. now rewrite Hc, Hf.
      * exact IHl.
Qed.

Lemma concat_empty_cons (x : string) (xs : list string) :
  concat EmptyString (x :: xs) = x ++ concat EmptyString xs.
Proof.
  destruct xs; cbn [concat append]; [|reflexivity].
  induction x as [|c x IH]; [reflexivity|]. cbn [append]. now rewrite <- IH.
Qed.

(** X2: [readlines] loses nothing: the lines put end to end are the text.  No
    line is empty, and a line feed is the last character of its line. *)
Theorem readlines_concat (text : string) :
  concat EmptyString (readlines text) = text
  /\ Forall (fun line =>
               exists s, count_LF s = O
                         /\ (line = s ++ nl \/ (line = s /\ s <> EmptyString)))
       (readlines text).
Proof.
  induction text as [|c rest (IHc & IHf)]; cbn [readlines].
  - split; [reflexivity|constructor].
  - destruct (Ascii.eqb c LF) eqn:Hc.
    + apply Ascii.eqb_eq in Hc. subst c. split.
      * now rewrite concat_empty_cons, IHc.
      * constructor; [|exact IHf]. exists EmptyString. auto.
    + destruct (readlines rest) as [|l ls].
      * cbn [concat] in IHc. subst rest. split; [reflexivity|].
        constructor; [|constructor]. exists (String c EmptyString).
        cbn [count_LF]. rewrite Hc. split; [reflexivity|].
        right. split; [reflexivity|discriminate].
      * split.
        { rewrite concat_empty_cons in *. cbn [append]. now rewrite IHc. }
        inversion IHf as [|? ? (s & Hs & Hl) Hls]; subst.
        constructor; [|exact Hls]. exists (String c s).
        cbn [count_LF]. rewrite Hc, Hs. split; [reflexivity|].
        destruct Hl as [->|[-> _]]; [now left|].
        right. split; [reflexivity|discriminate].
Qed.

(** X3: the literals [3.1] and [1.8] are the binary64 numbers nearest to 31/10
    and 18/10: mantissas of 53 bits, less than half a unit in the last
    place away ([10 * m * 2^e] against [31] and [18]). *)
Theorem literals_nearest :
  exists m1 m2 : positive,
    lit_3_1 = S754_finite false m1 (-51)
    /\ lit_1_8 = S754_finite false m2 (-52)
    /\ 2 ^ 52 <= Z.pos m1 < 2 ^ 53
    /\ 2 ^ 52 <= Z.pos m2 < 2 ^ 53
    /\ Z.abs (10 * Z.pos m1 - 31 * 2 ^ 51) < 5
    /\ Z.abs (10 * Z.pos m2 - 18 * 2 ^ 52) < 5.
Proof.
  exists 6980579422424269%positive, 8106479329266893%positive.
  vm_compute. repeat split; reflexivity || discriminate.
Qed.

(** Strings [float] reads, with the binary64 number it gives. *)
Example float_of_string_3_1 : float_of_string "3.1" = Some lit_3_1.
Proof. vm_compute. reflexivity. Qed.

Example float_of_string_neg_1_8 :
  float_of_string ("-1.8" ++ nl) = Some (float_neg lit_1_8).
Proof. vm_compute. reflexivity. Qed.

Example float_of_string_forms :
  float_of_string " 1_0.5e-1 " = Some (S754_finite false 4728779608739021 (-52))
  /\ float_of_string ".5" = Some (S754_finite false 4503599627370496 (-53))
  /\ float_of_string "5." = Some (S754_finite false 5629499534213120 (-50))
  /\ float_of_string "-0.0" = Some (S754_zero true)
  /\ float_of_string "1e400" = Some (S754_infinity false)
  /\ float_of_string "-1e-400" = Some (S754_zero true)
  /\ float_of_string "5e-324" = Some (S754_finite false 1 (-1074))
  /\ float_of_string "-iNf" = Some (S754_infinity true)
  /\ float_of_string "Infinity" = Some (S754_infinity false)
  /\ float_of_string "nan" = Some S754_nan.
Proof. vm_compute. repeat split; reflexivity. Qed.

Example float_of_string_rejects :
  map float_of_string
    [""; "."; "1e"; "1_"; "_1"; "1__0"; "1 0"; "0x10"; "infin"; "--1"; "1.0x"]
  = repeat None 11.
Proof. vm_compute. reflexivity. Qed.

(** Ties go to the even mantissa: 2^53 + 1 is half way between two
    binary64 numbers, and so is 2^53 + 3. *)
Example float_of_string_ties :
  float_of_string "9007199254740993"
  = Some (S754_finite false 4503599627370496 1)
  /\ float_of_string "9007199254740995"
     = Some (S754_finite false 4503599627370498 1).
Proof. vm_compute. split; reflexivity. Qed.

(** A decimal strictly inside the box can round to the bound, and then
    the line is not counted: the test is on binary64 numbers. *)
Example rounds_to_the_bound :
  float_of_string "3.0999999999999999" = Some lit_3_1
  /\ program ["3.0999999999999999 0" ++ nl] fresh =
     (Return tt,
      mkState (Some 0)
        ("There are 0 grid points within the JASMINE extended footprint"
         ++ nl)).
Proof. vm_compute. split; reflexivity. Qed.

(** ** Binary64: what [float] returns, and what the comparisons mean *)

Module Binary64.

(** Goals on [fexp] are linear once it is unfolded to a maximum. *)
Ltac fexp_lia := unfold fexp, emin, prec, emax in *; lia.

(** *** The number of bits of a mantissa *)

Lemma digits2_pos_size (p : positive) : digits2_pos p = Pos.size p.
Proof. induction p; simpl; congruence. Qed.

Lemma Zdigits2_log2 (m : Z) : 0 < m -> Zdigits2 m = Z.log2 m + 1.
Proof.
  destruct m as [|p|p]; try lia. intros _. cbn [Zdigits2].
  rewrite digits2_pos_size. destruct p; cbn [Pos.size Z.log2]; lia.
Qed.

Lemma Zdigits2_nonneg (m : Z) : 0 <= Zdigits2 m.
Proof. destruct m; cbn; lia. Qed.

Lemma Zdigits2_mono (a b : Z) : 0 <= a <= b -> Zdigits2 a <= Zdigits2 b.
Proof.
  intros [Ha Hab]. destruct (Z.eq_dec a 0) as [->|Hn].
  - apply Zdigits2_nonneg.
  - rewrite !Zdigits2_log2 by lia. pose proof (Z.log2_le_mono a b Hab). lia.
Qed.

Lemma Zdigits2_bounds (n : Z) :
  0 < n -> 2 ^ (Zdigits2 n - 1) <= n < 2 ^ Zdigits2 n.
Proof.
  intros Hn. rewrite Zdigits2_log2 by exact Hn.
  replace (Z.log2 n + 1 - 1) with (Z.log2 n) by lia.
  pose proof (Z.log2_spec n Hn) as H. rewrite <- Z.add_1_r in H. exact H.
Qed.

(** Cutting [k] low bits off takes [k] from the number of bits, as long
    as something is left. *)
Lemma Zdigits2_shift (m k : Z) :
  0 <= k -> 0 < m / 2 ^ k -> Zdigits2 (m / 2 ^ k) = Zdigits2 m - k.
Proof.
  intros Hk Hq.
  assert (Hm : 0 < m).
  { destruct (Z.lt_trichotomy m 0) as [H|[H|H]]; [| |exact H].
    - assert (m / 2 ^ k < 0); [|lia]. apply Z.div_lt_upper_bound; lia.
    - subst. now rewrite Z.div_0_l in Hq by lia. }
  rewrite !Zdigits2_log2 by assumption.
  rewrite <- Z.shiftr_div_pow2 by exact Hk.
  rewrite Z.log2_shiftr by exact Hm.
  assert (k <= Z.log2 m); [|lia].
  apply Z.log2_le_pow2; [exact Hm|].
  pose proof (Z.mul_div_le m (2 ^ k)). assert (0 < 2 ^ k) by lia.
  nia.
Qed.

(** *** Shifting to the canonical exponent *)

Lemma shr_1_m (mrs : shr_record) :
  0 <= shr_m mrs -> shr_m (shr_1 mrs) = shr_m mrs / 2.
Proof.
  destruct mrs as [m r s]. cbn [shr_m]. intros Hm.
  rewrite <- Z.div2_div.
  destruct m as [|[p|p|]|p]; try lia; reflexivity.
Qed.

Lemma iter_shr_1_m (p : positive) (mrs : shr_record) :
  0 <= shr_m mrs ->
  shr_m (iter_pos shr_1 p mrs) = shr_m mrs / 2 ^ Z.pos p.
Proof.
  revert mrs; induction p as [p IH|p IH|]; intros mrs Hm; cbn [iter_pos].
  - assert (H1 : 0 <= shr_m (shr_1 mrs)).
    { rewrite shr_1_m by exact Hm. apply Z.div_pos; lia. }
    assert (H2 : 0 <= shr_m (iter_pos shr_1 p (shr_1 mrs))).
    { rewrite IH by exact H1. apply Z.div_pos; lia. }
    rewrite IH, IH, shr_1_m by assumption.
    rewrite !Z.div_div by lia. f_equal.
    rewrite <- Z.pow_add_r, <- Z.pow_succ_r by lia. f_equal. lia.
  - assert (H2 : 0 <= shr_m (iter_pos shr_1 p mrs)).
    { rewrite IH by exact Hm. apply Z.div_pos; lia. }
    rewrite IH, IH by assumption.
    rewrite !Z.div_div by lia. f_equal.
    rewrite <- Z.pow_add_r by lia. f_equal. lia.
  - rewrite shr_1_m by exact Hm. reflexivity.
Qed.

Lemma shr_record_of_loc_m (m : Z) (l : location) :
  shr_m (shr_record_of_loc m l) = m.
Proof. destruct l as [|[]]; reflexivity. Qed.

(** A mantissa with bits to spare is shifted to the canonical exponent of
    its value. *)
Lemma shr_fexp_spec (m e : Z) (l : location) :
  0 <= m ->
  e <= fexp prec emax (Zdigits2 m + e) ->
  snd (shr_fexp prec emax m e l) = fexp prec emax (Zdigits2 m + e)
  /\ shr_m (fst (shr_fexp prec emax m e l))
     = m / 2 ^ (fexp prec emax (Zdigits2 m + e) - e).
Proof.
  intros Hm He. unfold shr_fexp, shr.
  destruct (fexp prec emax (Zdigits2 m + e) - e) as [|k|k] eqn:Hk; try lia.
  - cbn [fst snd]. rewrite shr_record_of_loc_m, Z.div_1_r. split; lia.
  - cbn [fst snd]. rewrite iter_shr_1_m, shr_record_of_loc_m
      by now rewrite shr_record_of_loc_m.
    split; [lia|reflexivity].
Qed.

(** The shifted mantissa sits at its canonical exponent, or is 0 at [emin]. *)
Lemma shr_fexp_canonical (m e : Z) (l : location) :
  0 <= m ->
  e <= fexp prec emax (Zdigits2 m + e) ->
  let m' := shr_m (fst (shr_fexp prec emax m e l)) in
  let e' := snd (shr_fexp prec emax m e l) in
  0 <= m'
  /\ (0 < m' ->
      Zdigits2 m' + e' = Zdigits2 m + e
      /\ fexp prec emax (Zdigits2 m' + e') = e')
  /\ (m' = 0 -> e' = emin prec emax).
Proof.
  intros Hm He. cbv zeta.
  destruct (shr_fexp_spec m e l Hm He) as [-> ->].
  set (e1 := fexp prec emax (Zdigits2 m + e)) in *.
  assert (Hk : 0 <= e1 - e) by lia.
  split; [apply Z.div_pos; lia|]. split.
  - intros Hpos. rewrite Zdigits2_shift by assumption.
    split; [lia|].
    now replace (Zdigits2 m - (e1 - e) + e1) with (Zdigits2 m + e) by lia.
  - intros H0. destruct (Z.eq_dec m 0) as [->|Hn].
    + subst e1. cbn [Zdigits2] in *. fexp_lia.
    + assert (Hlt : m < 2 ^ (e1 - e)).
      { apply Z.div_small_iff in H0; lia. }
      assert (Hd : Zdigits2 m <= e1 - e).
      { rewrite Zdigits2_log2 by lia.
        assert (Z.log2 m < e1 - e); [|lia]. apply Z.log2_lt_pow2; lia. }
      subst e1. fexp_lia.
Qed.

Lemma round_nearest_even_range (m : Z) (l : location) :
  m <= round_nearest_even m l <= m + 1.
Proof. destruct l as [|[]]; cbn; try lia. destruct (Z.even m); lia. Qed.

(** Rounding gives a canonical number: shifted, rounded, and shifted once
    more when the rounding carried into a new bit. *)
Lemma binary_round_aux_valid (sx : bool) (m e : Z) (l : location) :
  0 <= m ->
  e <= fexp prec emax (Zdigits2 m + e) ->
  valid_binary prec emax (binary_round_aux prec emax sx m e l) = true.
Proof.
  intros Hm He. unfold binary_round_aux.
  pose proof (shr_fexp_canonical m e l Hm He) as H1. cbv zeta in H1.
  destruct (shr_fexp prec emax m e l) as [mrs1 e1]. cbn [fst snd] in H1.
  destruct H1 as (Hm1 & Hpos1 & Hzero1).
  pose proof (round_nearest_even_range (shr_m mrs1) (loc_of_shr_record mrs1))
    as Hr.
  set (m2 := round_nearest_even (shr_m mrs1) (loc_of_shr_record mrs1)) in *.
  assert (Hm2 : 0 <= m2) by lia.
  assert (He2 : e1 <= fexp prec emax (Zdigits2 m2 + e1)).
  { destruct (Z.eq_dec (shr_m mrs1) 0) as [H0|Hn].
    - rewrite (Hzero1 H0). unfold fexp. lia.
    - destruct Hpos1 as [Hd Hf]; [lia|].
      pose proof (Zdigits2_mono (shr_m mrs1) m2 ltac:(lia)).
      unfold fexp in *. lia. }
  pose proof (shr_fexp_canonical m2 e1 loc_Exact Hm2 He2) as H2.
  cbv zeta in H2.
  destruct (shr_fexp prec emax m2 e1 loc_Exact) as [mrs2 e2].
  cbn [fst snd] in H2. destruct H2 as (Hm3 & Hpos3 & _).
  destruct (shr_m mrs2) as [|p|p] eqn:Hp; try reflexivity.
  destruct (e2 <=? emax - prec) eqn:Hle; [|reflexivity].
  cbn [valid_binary]. unfold bounded, canonical_mantissa.
  destruct Hpos3 as [_ Hf]; [lia|]. cbn [Zdigits2] in Hf.
  rewrite Hf, Z.eqb_refl, Hle. reflexivity.
Qed.

(** *** The quotient the conversion rounds *)

(** The quotient of [n] by [d] is cut with at least 53 bits, or at
    [emin]: it has bits to spare for the rounding. *)
Lemma SFdiv_core_binary_spec (n d : Z) :
  0 < n -> 0 < d ->
  let '(q, e, _) := SFdiv_core_binary prec emax n 0 d 0 in
  0 <= q /\ e <= fexp prec emax (Zdigits2 q + e).
Proof.
  intros Hn Hd. unfold SFdiv_core_binary.
  set (d1 := Zdigits2 n). set (d2 := Zdigits2 d).
  set (e := Z.min (fexp prec emax (d1 + 0 - (d2 + 0))) (0 - 0)).
  set (s := 0 - 0 - e).
  assert (Hs : 0 <= s) by (subst s e; lia).
  set (m' := match s with Z.pos _ => Z.shiftl n s | 0 => n | Z.neg _ => 0 end).
  assert (Hm' : m' = n * 2 ^ s).
  { subst m'. destruct s as [|p|p] eqn:E; [lia| |lia].
    now rewrite Z.shiftl_mul_pow2 by lia. }
  assert (Hq : fst (Z.div_eucl m' d) = m' / d) by reflexivity.
  destruct (Z.div_eucl m' d) as [q r]. cbn [fst] in Hq. subst q.
  assert (H2s : 0 < 2 ^ s) by lia.
  split; [apply Z.div_pos; nia|].
  pose proof (Zdigits2_bounds n Hn) as Bn. fold d1 in Bn.
  pose proof (Zdigits2_bounds d Hd) as Bd. fold d2 in Bd.
  assert (He : e <= fexp prec emax (d1 - d2)).
  { subst e. replace (d1 + 0 - (d2 + 0)) with (d1 - d2) by lia. lia. }
  assert (Hes : e = - s) by (subst s; lia).
  destruct (Z_lt_le_dec (d1 - 1 + s - d2) 0) as [Ht|Ht].
  - clearbody e. fexp_lia.
  - assert (Hge : 2 ^ (d1 - 1 + s - d2) <= m' / d).
    { apply Z.div_le_lower_bound; [lia|].
      assert (Hp : 2 ^ (d1 - 1 + s - d2) * 2 ^ d2 = 2 ^ (d1 - 1) * 2 ^ s).
      { assert (H2 : 0 <= d2) by apply Zdigits2_nonneg.
        assert (H1 : 0 < d1).
        { subst d1. rewrite Zdigits2_log2 by lia.
          pose proof (Z.log2_nonneg n). lia. }
        rewrite <- !Z.pow_add_r by lia. f_equal; lia. }
      assert (0 < 2 ^ (d1 - 1 + s - d2)) by lia.
      nia. }
    assert (Hq0 : 0 < m' / d) by lia.
    assert (Hdq : d1 + s - d2 <= Zdigits2 (m' / d)).
    { rewrite Zdigits2_log2 by exact Hq0.
      assert (d1 - 1 + s - d2 <= Z.log2 (m' / d)); [|lia].
      apply Z.log2_le_pow2; assumption. }
    clearbody e. fexp_lia.
Qed.

Lemma binary64_of_decimal_valid (neg : bool) (m e : Z) :
  0 <= m -> valid_binary prec emax (binary64_of_decimal neg m e) = true.
Proof.
  intros Hm. unfold binary64_of_decimal.
  destruct (m =? 0) eqn:H0; [reflexivity|]. apply Z.eqb_neq in H0.
  assert (Hn : 0 < m * 10 ^ Z.max e 0) by (apply Z.mul_pos_pos; lia).
  assert (Hd : 0 < 10 ^ Z.max (- e) 0) by lia.
  pose proof (SFdiv_core_binary_spec _ _ Hn Hd) as H.
  destruct (SFdiv_core_binary prec emax _ 0 _ 0) as [[q e'] loc].
  destruct H as [Hq He]. now apply binary_round_aux_valid.
Qed.

(** *** What the parser returns *)

Lemma span_all (p : ascii -> bool) (s : string) :
  all_chars p (fst (span p s)) = true.
Proof.
  induction s as [|c s IH]; [reflexivity|]. cbn [span].
  destruct (p c) eqn:Hc; [|reflexivity].
  destruct (span p s) as [a b]. cbn [fst all_chars] in *. now rewrite Hc, IH.
Qed.

Lemma all_chars_app (p : ascii -> bool) (s t : string) :
  all_chars p (s ++ t) = all_chars p s && all_chars p t.
Proof.
  induction s as [|c s IH]; [reflexivity|].
  cbn [append all_chars]. now rewrite IH, andb_assoc.
Qed.

Lemma Z_of_digits_acc_nonneg (s : string) (acc : Z) :
  0 <= acc -> all_chars is_digit s = true -> 0 <= Z_of_digits_acc acc s.
Proof.
  revert acc; induction s as [|c s IH]; intros acc Ha;
    cbn [all_chars Z_of_digits_acc].
  - intros _. exact Ha.
  - intros H. apply andb_true_iff in H. destruct H as [Hc Hs].
    apply IH; [|exact Hs]. unfold is_digit in Hc. unfold digit_value.
    apply andb_true_iff in Hc. lia.
Qed.

(** The digits after the point, when there is a point. *)
Lemma fraction_digits (s2 fp s3 : string) :
  match s2 with
  | String "." t => span is_digit t
  | _ => (EmptyString, s2)
  end = (fp, s3) ->
  all_chars is_digit fp = true.
Proof.
  destruct s2 as [|c t]; [now intros [= <- _]|].
  destruct (Ascii.eqb c ".") eqn:Hc.
  - apply Ascii.eqb_eq in Hc. subst c.
    pose proof (span_all is_digit t) as Ht. intros E. now rewrite E in Ht.
  - assert (E : match c with
                | "."%char => span is_digit t
                | _ => (EmptyString, String c t)
                end = (EmptyString, String c t)).
    { destruct c as [[] [] [] [] [] [] [] []]; try reflexivity.
      discriminate Hc. }
    change (match c with
            | "."%char => span is_digit t
            | _ => (EmptyString, String c t)
            end = (fp, s3) -> all_chars is_digit fp = true).
    rewrite E. now intros [= <- _].
Qed.

Lemma parse_decimal_valid (s rest : string) (x : float) :
  parse_decimal s = Some (x, rest) -> valid_binary prec emax x = true.
Proof.
  unfold parse_decimal.
  destruct (parse_sign s) as [neg s1].
  pose proof (span_all is_digit s1) as Hip.
  destruct (span is_digit s1) as [ip s2]. cbn [fst] in Hip.
  pose proof (fraction_digits s2) as Hfp.
  destruct (match s2 with
            | String "." t => span is_digit t
            | _ => (EmptyString, s2)
            end) as [fp s3].
  specialize (Hfp fp s3 eq_refl).
  destruct (ip ++ fp) as [|c ds] eqn:Hds; [discriminate|].
  destruct (parse_exponent s3) as [ex s4]. intros [= <- _].
  apply binary64_of_decimal_valid. unfold Z_of_digits.
  apply Z_of_digits_acc_nonneg; [lia|]. rewrite <- Hds, all_chars_app.
  now rewrite Hip, Hfp.
Qed.

Lemma float_of_string_valid (s : string) (x : float) :
  float_of_string s = Some x -> valid_binary prec emax x = true.
Proof.
  unfold float_of_string.
  destruct (remove_underscores NUL s) as [s0|]; [|discriminate].
  cbv zeta.
  destruct (parse_decimal (skip_spaces s0)) as [[y r]|] eqn:Hd.
  - destruct (skip_spaces r); [|discriminate]. intros [= <-].
    exact (parse_decimal_valid _ _ _ Hd).
  - unfold parse_inf_or_nan.
    destruct (parse_sign (skip_spaces s0)) as [neg s1].
    destruct (match_nocase "inf" s1) as [s2|].
    + destruct (match_nocase "inity" s2) as [s3|];
        match goal with
        | |- context [skip_spaces ?r] => destruct (skip_spaces r)
        end;
        try discriminate; now intros [= <-].
    + destruct (match_nocase "nan" s1) as [s2|]; [|discriminate].
      destruct (skip_spaces s2); [|discriminate]. now intros [= <-].
Qed.

(** A canonical mantissa and exponent: the exponent from -1074 to 971, the
    mantissa below 2^53, and of 53 bits unless the exponent is -1074. *)
Lemma bounded_bounds (m : positive) (e : Z) :
  bounded prec emax m e = true ->
  emin prec emax <= e <= emax - prec
  /\ Z.pos m < 2 ^ 53
  /\ (emin prec emax < e -> 2 ^ 52 <= Z.pos m).
Proof.
  unfold bounded, canonical_mantissa. intros H.
  apply andb_true_iff in H. destruct H as [Hc He].
  apply Z.eqb_eq in Hc. apply Z.leb_le in He.
  pose proof (Zdigits2_bounds (Z.pos m) ltac:(lia)) as Hb.
  cbn [Zdigits2] in Hb. set (D := Z.pos (digits2_pos m)) in *.
  assert (HD : D <= 53 /\ emin prec emax <= e
               /\ (emin prec emax < e -> D = 53)).
  { clearbody D. fexp_lia. }
  destruct HD as (HD & Hmin & Hn).
  split; [lia|]. split.
  - assert (2 ^ D <= 2 ^ 53) by (apply Z.pow_le_mono_r; lia). lia.
  - intros Hlt. rewrite (Hn Hlt) in Hb. change (53 - 1) with 52 in Hb. lia.
Qed.

(** X4: what [float] returns is a canonical binary64 number: an infinity,
    a NaN, a zero, or a mantissa below 2^53 with an exponent from -1074 to
    971, the mantissa of 53 bits unless the exponent is -1074. *)
Theorem float_of_string_canonical (s : string) (x : float) :
  float_of_string s = Some x ->
  valid_binary prec emax x = true
  /\ match x with
     | S754_finite _ m e =>
         -1074 <= e <= 971 /\ Z.pos m < 2 ^ 53
         /\ (-1074 < e -> 2 ^ 52 <= Z.pos m)
     | _ => True
     end.
Proof.
  intros H. apply float_of_string_valid in H. split; [exact H|].
  destruct x as [sx|sx| |sx m e]; try exact I.
  exact (bounded_bounds m e H).
Qed.

(** X4 at the string [0.1]. *)
Lemma float_of_string_canonical_witness :
  -1074 <= -56 <= 971 /\ 7205759403792794 < 2 ^ 53
  /\ (-1074 < -56 -> 2 ^ 52 <= 7205759403792794).
Proof.
  assert (H : float_of_string "0.1"
              = Some (S754_finite false 7205759403792794 (-56)))
    by (vm_compute; reflexivity).
  exact (proj2 (float_of_string_canonical "0.1" _ H)).
Defined.

(** *** Comparisons are comparisons of exact values *)

Lemma magnitude_compare (m1 m2 : positive) (e1 e2 : Z) :
  bounded prec emax m1 e1 = true ->
  bounded prec emax m2 e2 = true ->
  match e1 ?= e2 with
  | Lt => Lt
  | Gt => Gt
  | Eq => Pos.compare_cont Eq m1 m2
  end
  = (Z.pos m1 * 2 ^ (e1 - emin prec emax)
     ?= Z.pos m2 * 2 ^ (e2 - emin prec emax)).
Proof.
  intros H1 H2.
  destruct (bounded_bounds _ _ H1) as (He1 & Hm1 & Hn1).
  destruct (bounded_bounds _ _ H2) as (He2 & Hm2 & Hn2).
  set (z := emin prec emax) in *.
  assert (Hstep : forall ma mb ea eb,
             z <= ea -> ea < eb -> Z.pos ma < 2 ^ 53 -> 2 ^ 52 <= Z.pos mb ->
             Z.pos ma * 2 ^ (ea - z) < Z.pos mb * 2 ^ (eb - z)).
  { intros ma mb ea eb Hz Hlt Ha Hb.
    replace (eb - z) with ((eb - ea) + (ea - z)) by lia.
    rewrite Z.pow_add_r by lia.
    assert (HK : 2 ^ 1 <= 2 ^ (eb - ea)) by (apply Z.pow_le_mono_r; lia).
    assert (HP : 0 < 2 ^ (ea - z)) by (apply Z.pow_pos_nonneg; lia).
    change (2 ^ 1) with 2 in HK. change (2 ^ 53) with (2 ^ 52 * 2) in Ha.
    assert (HT : 0 < 2 ^ 52) by lia.
    assert (HmK : 2 ^ 52 * 2 <= Z.pos mb * 2 ^ (eb - ea))
      by (apply Z.mul_le_mono_nonneg; lia).
    rewrite Z.mul_assoc.
    apply Z.lt_le_trans with (2 ^ 52 * 2 * 2 ^ (ea - z)).
    - apply Z.mul_lt_mono_pos_r; assumption.
    - apply Z.mul_le_mono_nonneg_r; lia. }
  destruct (e1 ?= e2) eqn:Hc; symmetry.
  - apply Z.compare_eq in Hc. subst e2.
    assert (HP : 0 < 2 ^ (e1 - z)) by (apply Z.pow_pos_nonneg; lia).
    change (Pos.compare_cont Eq m1 m2) with (Pos.compare m1 m2).
    destruct (Pos.compare_spec m1 m2) as [->|Hlt|Hgt].
    + apply Z.compare_refl.
    + apply Z.compare_lt_iff, Z.mul_lt_mono_pos_r; lia.
    + apply Z.compare_gt_iff, Z.mul_lt_mono_pos_r; lia.
  - apply Z.compare_lt_iff. rewrite Z.compare_lt_iff in Hc.
    apply Hstep; lia.
  - apply Z.compare_gt_iff. rewrite Z.compare_gt_iff in Hc.
    apply Hstep; lia.
Qed.

(** On canonical finite numbers the IEEE comparison is the comparison of
    the exact values. *)
Lemma SFcompare_scaled (x y : float) :
  valid_binary prec emax x = true ->
  valid_binary prec emax y = true ->
  is_finite x = true -> is_finite y = true ->
  SFcompare x y = Some (scaled x ?= scaled y).
Proof.
  destruct x as [sx|sx| |sx mx ex], y as [sy|sy| |sy my ey];
    try discriminate; cbn [valid_binary is_finite scaled SFcompare];
    intros Hx Hy _ _.
  - reflexivity.
  - f_equal. symmetry.
    assert (0 < 2 ^ (ey - emin prec emax)).
    { destruct (bounded_bounds _ _ Hy) as (He & _).
      apply Z.pow_pos_nonneg; lia. }
    destruct sy; [apply Z.compare_gt_iff|apply Z.compare_lt_iff]; nia.
  - f_equal. symmetry.
    assert (0 < 2 ^ (ex - emin prec emax)).
    { destruct (bounded_bounds _ _ Hx) as (He & _).
      apply Z.pow_pos_nonneg; lia. }
    destruct sx; [apply Z.compare_lt_iff|apply Z.compare_gt_iff]; nia.
  - f_equal.
    assert (Px : 0 < 2 ^ (ex - emin prec emax)).
    { destruct (bounded_bounds _ _ Hx) as (He & _).
      apply Z.pow_pos_nonneg; lia. }
    assert (Py : 0 < 2 ^ (ey - emin prec emax)).
    { destruct (bounded_bounds _ _ Hy) as (He & _).
      apply Z.pow_pos_nonneg; lia. }
    pose proof (magnitude_compare mx my ex ey Hx Hy) as Hm.
    destruct sx, sy.
    + rewrite !Z.mul_opp_l, Z.compare_opp.
      rewrite (Z.compare_antisym (Z.pos mx * _) (Z.pos my * _)), <- Hm.
      destruct (ex ?= ey); reflexivity.
    + symmetry. apply Z.compare_lt_iff. nia.
    + symmetry. apply Z.compare_gt_iff. nia.
    + exact Hm.
Qed.

Lemma SFltb_scaled (x y : float) :
  valid_binary prec emax x = true ->
  valid_binary prec emax y = true ->
  is_finite x = true -> is_finite y = true ->
  SFltb x y = (scaled x <? scaled y).
Proof.
  intros Hx Hy Fx Fy. unfold SFltb, Z.ltb.
  now rewrite (SFcompare_scaled x y Hx Hy Fx Fy).
Qed.

Lemma scaled_opp (x : float) : scaled (SFopp x) = - scaled x.
Proof. destruct x as [s|s| |[] m e]; cbn [SFopp scaled negb]; lia. Qed.

(** X5: on two numbers [float] returned, the test of line 11 holds exactly
    when both are finite and their exact values lie strictly between the
    exact values of the bounds, the binary64 numbers of [-3.1], [3.1],
    [-1.8] and [1.8]. *)
Theorem in_footprint_exact (s0 s1 : string) (l b : float) :
  float_of_string s0 = Some l ->
  float_of_string s1 = Some b ->
  in_footprint l b =
  is_finite l && is_finite b
  && ((- scaled lit_3_1 <? scaled l) && (scaled l <? scaled lit_3_1)
      && ((- scaled lit_1_8 <? scaled b) && (scaled b <? scaled lit_1_8))).
Proof.
  intros Hl Hb.
  apply float_of_string_valid in Hl, Hb.
  assert (V1 : valid_binary prec emax lit_3_1 = true)
    by (vm_compute; reflexivity).
  assert (V2 : valid_binary prec emax lit_1_8 = true)
    by (vm_compute; reflexivity).
  assert (V1' : valid_binary prec emax (SFopp lit_3_1) = true)
    by (vm_compute; reflexivity).
  assert (V2' : valid_binary prec emax (SFopp lit_1_8) = true)
    by (vm_compute; reflexivity).
  unfold in_footprint, float_gt, float_lt, float_neg.
  destruct (is_finite l) eqn:Fl.
  - destruct (is_finite b) eqn:Fb.
    + rewrite !SFltb_scaled, !scaled_opp by (assumption || reflexivity).
      reflexivity.
    + destruct b as [s|[]| |s m e]; try discriminate Fb;
        cbn [andb]; rewrite ?andb_false_r; reflexivity.
  - destruct l as [s|[]| |s m e]; try discriminate Fl; reflexivity.
Qed.

(** X5 at the fields [-3.0] and [inf]: the second is not finite. *)
Lemma in_footprint_exact_witness :
  in_footprint (S754_finite true 6755399441055744 (-51)) (S754_infinity false)
  = false.
Proof.
  assert (H0 : float_of_string "-3.0"
               = Some (S754_finite true 6755399441055744 (-51)))
    by (vm_compute; reflexivity).
  assert (H1 : float_of_string "inf" = Some (S754_infinity false))
    by (vm_compute; reflexivity).
  rewrite (in_footprint_exact "-3.0" "inf" _ _ H0 H1). reflexivity.
Defined.

End Binary64.

(** ** Comparisons of binary64 numbers *)

Lemma SFcompare_Eq_sym (x y : float) :
  SFcompare x y = Some Eq -> SFcompare y x = Some Eq.
Proof.
  destruct x as [sx|sx| |sx mx ex], y as [sy|sy| |sy my ey]; simpl;
    try discriminate; try reflexivity;
    try (destruct sx, sy; simpl; discriminate || reflexivity);
    try (destruct sx; discriminate); try (destruct sy; discriminate).
  destruct sx, sy; try discriminate.
  - destruct (ex ?= ey) eqn:He; try discriminate.
    apply Z.compare_eq in He; subst ey. rewrite Z.compare_refl.
    destruct (Pos.compare_cont Eq mx my) eqn:Hm; try discriminate.
    apply Pos.compare_eq in Hm; subst my. intros _.
    now rewrite Pos.compare_cont_refl.
  - destruct (ex ?= ey) eqn:He; try discriminate.
    apply Z.compare_eq in He; subst ey. rewrite Z.compare_refl.
    destruct (Pos.compare_cont Eq mx my) eqn:Hm; try discriminate.
    apply Pos.compare_eq in Hm; subst my. intros _.
    now rewrite Pos.compare_cont_refl.
Qed.

(** Python's [x == y] on floats excludes [x < y] and [y < x]. *)
Lemma SFeqb_not_ltb (x y : float) :
  SFeqb x y = true -> SFltb x y = false /\ SFltb y x = false.
Proof.
  unfold SFeqb, SFltb. intros H.
  destruct (SFcompare x y) as [[| |]|] eqn:Hxy; try discriminate.
  now rewrite (SFcompare_Eq_sym _ _ Hxy).
Qed.

(** ** The monad and the loop *)

Lemma for_each_app {A} (xs ys : list A) (f : A -> M unit) (st : state) :
  for_each (xs ++ ys) f st =
  match for_each xs f st with
  | (Return _, st') => for_each ys f st'
  | (Raise e, st') => (Raise e, st')
  end.
Proof.
  revert st; induction xs as [|x xs IH]; intros st; simpl.
  - reflexivity.
  - unfold bind. destruct (f x st) as [[[]|e] st1].
    + apply IH.
    + reflexivity.
Qed.

(** Case analysis along lines 8 to 10 of a data line: field 0, its number,
    field 1, its number.  [tac] closes the four cases that raise. *)
Ltac fields_cases line tac :=
  let f0 := fresh "f0" in
  let f1 := fresh "f1" in
  let l := fresh "l" in
  let b := fresh "b" in
  destruct (nth_error (split " " line) 0) as [f0|]; [|tac];
  destruct (float_of_string f0) as [l|]; [|tac];
  destruct (nth_error (split " " line) 1) as [f1|]; [|tac];
  destruct (float_of_string f1) as [b|]; [|tac].

(** One turn of the loop on a state whose count is bound: the count moves
    by the line's increment, or the line's exception is raised with the
    state as it was. *)
Lemma body_line_delta (line : string) (c : Z) (out : string) :
  body line (mkState (Some c) out) =
  match line_delta line with
  | Return d => (Return tt, mkState (Some (c + d)) out)
  | Raise e => (Raise e, mkState (Some c) out)
  end.
Proof.
  unfold body, line_delta.
  destruct (startswith line "#").
  - unfold ret. now rewrite Z.add_0_r.
  - unfold bind, getitem, to_float, ret.
    fields_cases line reflexivity.
    destruct (in_footprint l b).
    + reflexivity.
    + unfold ret. now rewrite Z.add_0_r.
Qed.

Lemma line_delta_range (line : string) (d : Z) :
  line_delta line = Return d ->
  0 <= d <= (if is_data line then 1 else 0).
Proof.
  unfold line_delta, is_data.
  destruct (startswith line "#"); cbn [negb].
  - intros [= <-]. lia.
  - fields_cases line discriminate.
    intros [= <-]. destruct (in_footprint l b); lia.
Qed.

Lemma data_lines_cons (line : string) (lines : list string) :
  data_lines (line :: lines) =
  (if is_data line then 1 else 0) + data_lines lines.
Proof.
  unfold data_lines. cbn [filter].
  destruct (is_data line); cbn [List.length]; lia.
Qed.

Lemma data_lines_app (xs ys : list string) :
  data_lines (xs ++ ys) = data_lines xs + data_lines ys.
Proof.
  unfold data_lines. rewrite filter_app, length_app. lia.
Qed.

Lemma data_lines_nonneg (xs : list string) : 0 <= data_lines xs.
Proof. unfold data_lines. lia. Qed.

(** The loop never touches standard output, keeps the count bound, and
    moves it up by at most one per data line. *)
Lemma for_each_body_bounds (lines : list string) (c : Z) (out : string) :
  exists r c',
    for_each lines body (mkState (Some c) out) = (r, mkState (Some c') out)
    /\ c <= c' <= c + data_lines lines.
Proof.
  revert c; induction lines as [|line lines IH]; intros c.
  - exists (Return tt), c. split; [reflexivity|]. unfold data_lines; simpl; lia.
  - simpl. unfold bind. rewrite body_line_delta, data_lines_cons.
    pose proof (data_lines_nonneg lines) as Hn.
    destruct (line_delta line) as [d|e] eqn:Hd.
    + apply line_delta_range in Hd.
      destruct (IH (c + d)) as (r & c' & -> & Hc).
      exists r, c'. split; [reflexivity|]. destruct (is_data line); lia.
    + exists (Raise e), c. split; [reflexivity|]. destruct (is_data line); lia.
Qed.

(** Lines 8 to 10 raise nothing but [IndexError] and [ValueError]. *)
Lemma line_delta_exn (line : string) (e : exn) :
  line_delta line = Raise e -> e = ValueError \/ e = IndexError.
Proof.
  unfold line_delta.
  destruct (startswith line "#"); [discriminate|].
  fields_cases line ltac:(intros [= <-]; auto).
  discriminate.
Qed.

Lemma well_formed_delta (line : string) :
  well_formed line = true <-> exists d, line_delta line = Return d.
Proof.
  unfold well_formed, line_delta.
  destruct (startswith line "#"); cbn [orb].
  - split; [eauto|reflexivity].
  - destruct (split " " line) as [|f0 [|f1 fs]]; cbn [nth_error].
    + split; [discriminate|intros [d [=]]].
    + destruct (float_of_string f0); split;
        solve [discriminate | intros [d [=]]].
    + destruct (float_of_string f0), (float_of_string f1); split;
        solve [eauto | discriminate | intros [d [=]]].
Qed.

(** On lines that are all well formed the loop returns, with the count
    moved by their tally. *)
Lemma for_each_well_formed (lines : list string) (c : Z) (out : string) :
  Forall (fun line => well_formed line = true) lines ->
  for_each lines body (mkState (Some c) out) =
  (Return tt, mkState (Some (c + tally lines)) out).
Proof.
  intros Hwf; revert c; induction Hwf as [|line lines Hl _ IH]; intros c.
  - simpl. unfold ret. now rewrite Z.add_0_r.
  - simpl. unfold bind. rewrite body_line_delta.
    apply well_formed_delta in Hl. destruct Hl as [d ->].
    rewrite IH. now rewrite Z.add_assoc.
Qed.

(** A line that raises stops the loop, here or earlier. *)
Lemma for_each_raises (lines : list string) (line : string) (e : exn)
    (c : Z) (out : string) :
  In line lines -> line_delta line = Raise e ->
  exists e' c',
    for_each lines body (mkState (Some c) out) =
    (Raise e', mkState (Some c') out)
    /\ (e' = ValueError \/ e' = IndexError).
Proof.
  intros Hin He; revert c; induction lines as [|x lines IH]; intros c.
  - destruct Hin.
  - simpl. unfold bind. rewrite body_line_delta.
    destruct (line_delta x) as [d|e0] eqn:Hx.
    + destruct Hin as [->|Hin]; [congruence|]. apply (IH Hin).
    + exists e0, c. split; [reflexivity|]. now apply line_delta_exn in Hx.
Qed.

(** The loop's result depends on the lines through their increments only. *)
Lemma for_each_delta_ext (xs ys : list string) (c : Z) (out : string) :
  map line_delta xs = map line_delta ys ->
  for_each xs body (mkState (Some c) out) =
  for_each ys body (mkState (Some c) out).
Proof.
  revert ys c; induction xs as [|x xs IH]; intros [|y ys] c; simpl;
    try discriminate; [reflexivity|].
  intros [= Hxy Hrest]. unfold bind. rewrite !body_line_delta, Hxy.
  destruct (line_delta y); [apply IH, Hrest|reflexivity].
Qed.

(** Starting the loop from a count [d] higher ends it the same way with a
    count [d] higher. *)
Lemma for_each_shift (lines : list string) (c d : Z) (out : string) :
  exists r c',
    for_each lines body (mkState (Some c) out) = (r, mkState (Some c') out)
    /\ for_each lines body (mkState (Some (c + d)) out)
       = (r, mkState (Some (c' + d)) out).
Proof.
  revert c; induction lines as [|x lines IH]; intros c.
  - exists (Return tt), c. split; reflexivity.
  - cbn [for_each]. unfold bind. rewrite !body_line_delta.
    destruct (line_delta x) as [dx|e].
    + destruct (IH (c + dx)) as (r & c' & H1 & H2).
      exists r, c'. split; [exact H1|].
      replace (c + d + dx) with (c + dx + d) by lia. exact H2.
    + exists (Raise e), c. split; reflexivity.
Qed.

(** The script, from the loop's result. *)
Lemma program_unfold (lines : list string) :
  program lines fresh =
  match for_each lines body (mkState (Some 0) EmptyString) with
  | (Return _, st) =>
      match count st with
      | Some c => (Return tt, mkState (count st) (stdout st ++ message c ++ nl))
      | None => (Raise NameError, st)
      end
  | (Raise e, st) => (Raise e, st)
  end.
Proof.
  cbv beta iota delta [program bind set_count fresh stdout].
  destruct (for_each lines body _) as [[[]|e] [[c|] out]]; reflexivity.
Qed.

Lemma program_well_formed (lines : list string) :
  Forall (fun line => well_formed line = true) lines ->
  program lines fresh =
  (Return tt, mkState (Some (tally lines)) (message (tally lines) ++ nl)).
Proof.
  intros Hwf. rewrite program_unfold, (for_each_well_formed _ _ _ Hwf).
  reflexivity.
Qed.

Lemma program_raises (lines : list string) (line : string) (e : exn) :
  In line lines -> line_delta line = Raise e ->
  exists e' st,
    program lines fresh = (Raise e', st) /\ stdout st = EmptyString
    /\ (e' = ValueError \/ e' = IndexError).
Proof.
  intros Hin He. rewrite program_unfold.
  destruct (for_each_raises lines line e 0 EmptyString Hin He)
    as (e' & c' & -> & Hk).
  exists e', (mkState (Some c') EmptyString). auto.
Qed.

(** When the script returns it has printed the message of a count that is
    not negative and at most the number of data lines. *)
Lemma program_returns (lines : list string) (st : state) :
  program lines fresh = (Return tt, st) ->
  exists n,
    0 <= n <= data_lines lines /\ st = mkState (Some n) (message n ++ nl).
Proof.
  rewrite program_unfold.
  destruct (for_each_body_bounds lines 0 EmptyString) as (r & c & -> & Hc).
  destruct r as [[]|e]; [|discriminate].
  cbn [count stdout]. intros [= <-]. exists c. split; [lia|reflexivity].
Qed.

(** ** The loop body on one line *)

(** A data line whose first two fields are numbers: the loop returns, and
    the count moves by one when the numbers are in the footprint. *)
Lemma body_data_line (line f0 f1 : string) (rest : list string)
    (l b : float) (c : Z) (out : string) :
  startswith line "#" = false ->
  split " " line = f0 :: f1 :: rest ->
  float_of_string f0 = Some l ->
  float_of_string f1 = Some b ->
  body line (mkState (Some c) out) =
  (Return tt, mkState (Some (if in_footprint l b then c + 1 else c)) out).
Proof.
  intros Hc Hs Hl Hb. rewrite body_line_delta. unfold line_delta.
  rewrite Hc, Hs. cbn [nth_error]. rewrite Hl, Hb.
  destruct (in_footprint l b); [reflexivity|now rewrite Z.add_0_r].
Qed.

(** C1: a data line whose first two space-separated fields parse as the
    floats [l] and [b] is counted if and only if [l > -3.1], [l < 3.1],
    [b > -1.8] and [b < 1.8]: the line adds [d] to the count, [d] is 1 when
    the four strict comparisons hold and 0 otherwise.  So a line with [l]
    equal to [-3.1] or [3.1], or [b] equal to [-1.8] or [1.8], is not
    counted.  The loop adds [d] whatever the count before the line, and
    with the line put anywhere into lines on which the script returns, the
    script returns with [d] more in its final count. *)
Theorem C1_counted_iff_strictly_inside (line f0 f1 : string)
    (rest : list string) (l b : float) :
  startswith line "#" = false ->
  split " " line = f0 :: f1 :: rest ->
  float_of_string f0 = Some l ->
  float_of_string f1 = Some b ->
  exists d,
    (d = 0 \/ d = 1)
    /\ (d = 1 <->
        float_gt l (float_neg lit_3_1) = true /\ float_lt l lit_3_1 = true
        /\ float_gt b (float_neg lit_1_8) = true /\ float_lt b lit_1_8 = true)
    /\ (float_eq l (float_neg lit_3_1) = true \/ float_eq l lit_3_1 = true
        \/ float_eq b (float_neg lit_1_8) = true \/ float_eq b lit_1_8 = true ->
        d = 0)
    /\ (forall c out,
          body line (mkState (Some c) out)
          = (Return tt, mkState (Some (c + d)) out))
    /\ (forall pre post st,
          program (pre ++ post) fresh = (Return tt, st) ->
          exists n st',
            count st = Some n
            /\ program (pre ++ line :: post) fresh = (Return tt, st')
            /\ count st' = Some (n + d)).
Proof.
  intros Hc Hs Hl Hb.
  assert (Hd : line_delta line = Return (if in_footprint l b then 1 else 0)).
  { unfold line_delta. rewrite Hc, Hs. cbn [nth_error]. now rewrite Hl, Hb. }
  exists (if in_footprint l b then 1 else 0).
  assert (Hin : in_footprint l b = true <->
                float_gt l (float_neg lit_3_1) = true
                /\ float_lt l lit_3_1 = true
                /\ float_gt b (float_neg lit_1_8) = true
                /\ float_lt b lit_1_8 = true).
  { unfold in_footprint. rewrite !andb_true_iff. tauto. }
  split; [destruct (in_footprint l b); auto|].
  split.
  { rewrite <- Hin. destruct (in_footprint l b); split; intros;
      try reflexivity; discriminate. }
  split.
  { intros Hedge.
    assert (Hout : in_footprint l b = false).
    { apply not_true_is_false. rewrite Hin. unfold float_gt, float_lt.
      unfold float_eq in Hedge. intros (H1 & H2 & H3 & H4).
      destruct Hedge as [H|[H|[H|H]]]; apply SFeqb_not_ltb in H;
        destruct H; congruence. }
    now rewrite Hout. }
  split.
  { intros c out. now rewrite body_line_delta, Hd. }
  intros pre post st Hrun.
  destruct (program_returns _ _ Hrun) as (n & _ & ->).
  exists n. rewrite program_unfold in Hrun. rewrite program_unfold.
  rewrite for_each_app in Hrun. rewrite for_each_app.
  destruct (for_each_body_bounds pre 0 EmptyString) as (r1 & k & Hpre & _).
  rewrite Hpre in Hrun. rewrite Hpre.
  destruct r1 as [[]|e]; [|discriminate].
  cbn [for_each]. unfold bind at 1. rewrite body_line_delta, Hd.
  destruct (for_each_shift post k (if in_footprint l b then 1 else 0)
              EmptyString) as (r2 & k' & Hpost & Hshift).
  rewrite Hpost in Hrun. rewrite Hshift.
  destruct r2 as [[]|e]; [|discriminate].
  cbn [count stdout] in Hrun |- *. injection Hrun as Hk _. subst k'.
  eexists. split; [reflexivity|]. split; reflexivity.
Qed.

(** C1 at the line [-3.1 0.0]: its [l] is on the boundary, and the count
    stays at 5. *)
Lemma C1_witness :
  body ("-3.1 0.0" ++ nl) (mkState (Some 5) "") =
  (Return tt, mkState (Some 5) "").
Proof.
  assert (H0 : float_of_string "-3.1" = Some (float_neg lit_3_1))
    by (vm_compute; reflexivity).
  assert (H1 : float_of_string ("0.0" ++ nl) = Some (S754_zero false))
    by (vm_compute; reflexivity).
  destruct (C1_counted_iff_strictly_inside ("-3.1 0.0" ++ nl)
              "-3.1" ("0.0" ++ nl) [] (float_neg lit_3_1) (S754_zero false)
              eq_refl eq_refl H0 H1)
    as (d & _ & _ & Hedge & Hbody & _).
  rewrite Hbody, Hedge; [reflexivity|].
  left. vm_compute. reflexivity.
Defined.

(** A line that raises does so in any state, and leaves the state as it
    was. *)
Lemma body_raises (line : string) (e : exn) (st : state) :
  line_delta line = Raise e -> body line st = (Raise e, st).
Proof.
  unfold line_delta, body.
  destruct (startswith line "#"); [discriminate|].
  unfold bind, getitem, to_float, ret, raise.
  fields_cases line ltac:(now intros [= <-]).
  discriminate.
Qed.

(** C2: when some data line has fewer than two fields, or its field 0 or
    its field 1 is no number for [float], the loop raises [ValueError] or
    [IndexError] on that line, in any state; nothing catches it, and the
    script ends with an uncaught [ValueError] or [IndexError] (of that line
    or of an earlier one) and has written nothing to standard output. *)
Theorem C2_parse_failure_is_fatal (lines : list string) (line : string) :
  In line lines ->
  startswith line "#" = false ->
  (List.length (split " " line) < 2)%nat
  \/ float_of_string (nth 0 (split " " line) "") = None
  \/ float_of_string (nth 1 (split " " line) "") = None ->
  (exists e0,
     (e0 = ValueError \/ e0 = IndexError)
     /\ forall st, body line st = (Raise e0, st))
  /\ exists e st,
       program lines fresh = (Raise e, st)
       /\ (e = ValueError \/ e = IndexError)
       /\ stdout st = "".
Proof.
  intros Hin Hc Hbad.
  assert (He : exists e, line_delta line = Raise e).
  { unfold line_delta. rewrite Hc.
    destruct (split " " line) as [|f0 [|f1 fs]]; cbn [nth_error].
    - eauto.
    - destruct (float_of_string f0); eauto.
    - cbn [nth List.length] in Hbad.
      destruct (float_of_string f0); [|eauto].
      destruct (float_of_string f1); [|eauto].
      destruct Hbad as [H|[H|H]]; [lia|discriminate|discriminate]. }
  destruct He as [e He]. split.
  - exists e. split; [exact (line_delta_exn line e He)|].
    intros st. now apply body_raises.
  - destruct (program_raises lines line e Hin He)
      as (e' & st & Hp & Hout & Hk).
    exists e', st. auto.
Qed.

(** C2 on a file whose second line has one field only. *)
Lemma C2_witness :
  exists e st,
    program ["1.0 1.0" ++ nl; "2.5" ++ nl] fresh = (Raise e, st)
    /\ (e = ValueError \/ e = IndexError)
    /\ stdout st = "".
Proof.
  assert (Hin : In ("2.5" ++ nl) ["1.0 1.0" ++ nl; "2.5" ++ nl])
    by (right; left; reflexivity).
  assert (Hbad : (List.length (split " " ("2.5" ++ nl)) < 2)%nat
                 \/ float_of_string (nth 0 (split " " ("2.5" ++ nl)) "") = None
                 \/ float_of_string (nth 1 (split " " ("2.5" ++ nl)) "") = None)
    by (left; vm_compute; reflexivity).
  exact (proj2 (C2_parse_failure_is_fatal _ _ Hin eq_refl Hbad)).
Defined.

(** C3 as stated fails: on a line whose two numbers are separated by two
    spaces, and on one where they are separated by a tab, the first two
    whitespace-separated fields are numbers for [float], and yet the loop
    raises [ValueError].  With two spaces field 1 of the split is empty;
    with a tab field 0 of the split is the two numbers and the tab. *)
Lemma C3_counterexample :
  let one := S754_finite false 4503599627370496 (-52) in
  let two := S754_finite false 4503599627370496 (-51) in
  let spaces := "1.0  2.0" ++ nl in
  let tab := "1.0" ++ String HT "2.0" ++ nl in
  float_of_string "1.0" = Some one
  /\ float_of_string "2.0" = Some two
  /\ (startswith spaces "#" = false
      /\ whitespace_separated_fields spaces = ["1.0"; "2.0"]
      /\ split " " spaces = ["1.0"; ""; "2.0" ++ nl]
      /\ body spaces (mkState (Some 0) "")
         = (Raise ValueError, mkState (Some 0) ""))
  /\ (startswith tab "#" = false
      /\ whitespace_separated_fields tab = ["1.0"; "2.0"]
      /\ split " " tab = [tab]
      /\ body tab (mkState (Some 0) "")
         = (Raise ValueError, mkState (Some 0) "")).
Proof. vm_compute. repeat split; reflexivity. Qed.

(** C3, amended: for a data line whose first two fields, split on the
    single space, are numbers for [float], lines 8 to 10 give field 0 as [l]
    and field 1 as [b] without an exception, and the loop returns. *)
Theorem C3_single_space_fields_parse (line f0 f1 : string)
    (rest : list string) (l b : float) (st : state) :
  startswith line "#" = false ->
  split " " line = f0 :: f1 :: rest ->
  float_of_string f0 = Some l ->
  float_of_string f1 = Some b ->
  (let line_s := split " " line in
   x0 <- getitem line_s 0 ;;
   l' <- to_float x0 ;;
   x1 <- getitem line_s 1 ;;
   b' <- to_float x1 ;;
   ret (l', b')) st = (Return (l, b), st)
  /\ forall c out, exists c',
       body line (mkState (Some c) out) = (Return tt, mkState (Some c') out).
Proof.
  intros Hc Hs Hl Hb. split.
  - cbv zeta. rewrite Hs. unfold bind, getitem, to_float. cbn [nth_error].
    unfold ret at 1. rewrite Hl. unfold ret at 1 2. rewrite Hb. reflexivity.
  - intros c out. eexists. now apply (body_data_line line f0 f1 rest l b).
Qed.

(** C3 at a line with a tab after the space: [float] skips the tab. *)
Lemma C3_witness :
  exists c',
    body ("1.0 " ++ String HT "2.0 x" ++ nl) (mkState (Some 0) "")
    = (Return tt, mkState (Some c') "").
Proof.
  assert (H0 : float_of_string "1.0"
               = Some (S754_finite false 4503599627370496 (-52)))
    by (vm_compute; reflexivity).
  assert (H1 : float_of_string (String HT "2.0")
               = Some (S754_finite false 4503599627370496 (-51)))
    by (vm_compute; reflexivity).
  exact (proj2 (C3_single_space_fields_parse
                  ("1.0 " ++ String HT "2.0 x" ++ nl)
                  "1.0" (String HT "2.0") ["x" ++ nl] _ _ fresh
                  eq_refl eq_refl H0 H1) 0 "").
Defined.

(** C4: the loop does nothing with a line that starts with [#]: whatever
    the rest of the line and whatever the state, it returns with the state
    as it was; such a line put anywhere among the lines changes neither
    the outcome nor the count; and on lines that all start with [#] the script
    prints that there are 0 grid points. *)
Theorem C4_comment_lines_skipped (line : string) (st : state)
    (pre post comments : list string) :
  startswith line "#" = true ->
  Forall (fun x => startswith x "#" = true) comments ->
  body line st = (Return tt, st)
  /\ program (pre ++ line :: post) fresh = program (pre ++ post) fresh
  /\ program comments fresh =
     (Return tt,
      mkState (Some 0)
        ("There are 0 grid points within the JASMINE extended footprint"
         ++ nl)).
Proof.
  intros Hc Hall.
  assert (Hbody : forall s, body line s = (Return tt, s)).
  { intros s. unfold body. now rewrite Hc. }
  split; [apply Hbody|]. split.
  - rewrite !program_unfold, !for_each_app. cbn [for_each]. unfold bind.
    destruct (for_each pre body _) as [[[]|e] s1]; [|reflexivity].
    now rewrite Hbody.
  - assert (Hwf : Forall (fun x => well_formed x = true) comments).
    { eapply Forall_impl; [|exact Hall]. intros x Hx.
      unfold well_formed. now rewrite Hx. }
    rewrite (program_well_formed _ Hwf).
    assert (Ht : tally comments = 0).
    { clear Hwf. induction Hall as [|x xs Hx _ IH]; [reflexivity|].
      cbn [tally]. unfold line_delta. now rewrite Hx, IH. }
    now rewrite Ht.
Qed.

(** C4 on a file of two comment lines, the second of which would not parse. *)
Lemma C4_witness :
  program ["# l b" ++ nl; "#1.0 x" ++ nl] fresh =
  (Return tt,
   mkState (Some 0)
     ("There are 0 grid points within the JASMINE extended footprint" ++ nl)).
Proof.
  apply (C4_comment_lines_skipped ("# l b" ++ nl) fresh [] []
           ["# l b" ++ nl; "#1.0 x" ++ nl]).
  - reflexivity.
  - repeat constructor.
Defined.

(** C9: on the file of the five lines [-3.0 1.0 x], [3.1 0.0 y],
    [0.0 -1.8 z], [# comment], [1.0 1.0 w], each ended by a line feed, the
    script returns and has printed that there are 2 grid points. *)
Theorem C9_five_line_example :
  let text :=
    "-3.0 1.0 x" ++ nl ++ "3.1 0.0 y" ++ nl ++ "0.0 -1.8 z" ++ nl
    ++ "# comment" ++ nl ++ "1.0 1.0 w" ++ nl in
  readlines text =
    ["-3.0 1.0 x" ++ nl; "3.1 0.0 y" ++ nl; "0.0 -1.8 z" ++ nl;
     "# comment" ++ nl; "1.0 1.0 w" ++ nl]
  /\ main (Some text) fresh =
     (Return tt,
      mkState (Some 2)
        ("There are 2 grid points within the JASMINE extended footprint"
         ++ nl)).
Proof. vm_compute. split; reflexivity. Qed.

(** ** Printing the count *)

Lemma digits_acc_of_uint (d : uint) (acc : positive) :
  Z_of_digits_acc (Z.pos acc) (NilEmpty.string_of_uint d) =
  Z.pos (Pos.of_uint_acc d acc).
Proof.
  revert acc;
    induction d as [|d IH|d IH|d IH|d IH|d IH|d IH|d IH|d IH|d IH|d IH];
    intros acc; cbn [NilEmpty.string_of_uint Z_of_digits_acc Pos.of_uint_acc];
    [reflexivity|..]; rewrite <- IH; f_equal;
    match goal with
    | |- context [digit_value ?c] =>
        let v := eval vm_compute in (digit_value c) in
        change (digit_value c) with v
    end; lia.
Qed.

Lemma digits_of_uint (d : uint) :
  Z_of_digits (NilEmpty.string_of_uint d) = Z.of_N (Pos.of_uint d).
Proof.
  unfold Z_of_digits.
  induction d as [|d IH|d IH|d IH|d IH|d IH|d IH|d IH|d IH|d IH|d IH];
    cbn [NilEmpty.string_of_uint Z_of_digits_acc Pos.of_uint];
    [reflexivity|exact IH|..]; cbn [Z.of_N];
    rewrite <- digits_acc_of_uint; f_equal.
Qed.

Lemma string_of_uint_digits (d : uint) :
  all_chars is_digit (NilEmpty.string_of_uint d) = true.
Proof. induction d; simpl; auto. Qed.

Lemma string_of_uint_no_LF (d : uint) :
  count_LF (NilEmpty.string_of_uint d) = O.
Proof. induction d; simpl; auto. Qed.

(** [str] of a count that is not negative: decimal digits that denote it,
    none of them a line feed. *)
Lemma str_of_int_decimal (n : Z) :
  0 <= n ->
  all_chars is_digit (str_of_int n) = true
  /\ Z_of_digits (str_of_int n) = n
  /\ count_LF (str_of_int n) = O.
Proof.
  intros Hn. unfold str_of_int. destruct n as [|p|p]; [| |lia].
  - repeat split.
  - cbn [Z.to_int NilZero.string_of_int].
    assert (Hs : NilZero.string_of_uint (Pos.to_uint p)
                 = NilEmpty.string_of_uint (Pos.to_uint p)).
    { pose proof (Unsigned.to_uint_nonnil p) as Hnil.
      destruct (Pos.to_uint p); [congruence|reflexivity..]. }
    rewrite Hs. split; [apply string_of_uint_digits|]. split.
    + now rewrite digits_of_uint, Unsigned.of_to.
    + apply string_of_uint_no_LF.
Qed.

Lemma string_app_assoc (s t u : string) : (s ++ t) ++ u = s ++ (t ++ u).
Proof.
  induction s as [|c s IH]; [reflexivity|].
  cbn [append]. now rewrite IH.
Qed.

Lemma count_LF_app (s t : string) :
  count_LF (s ++ t) = (count_LF s + count_LF t)%nat.
Proof.
  induction s as [|c s IH]; [reflexivity|].
  cbn [append count_LF]. rewrite IH. lia.
Qed.

Lemma readlines_one_line (s : string) :
  count_LF s = O -> readlines (s ++ nl) = [s ++ nl].
Proof.
  induction s as [|c s IH]; [reflexivity|].
  cbn [count_LF append readlines].
  destruct (Ascii.eqb c LF); [discriminate|].
  intros H. now rewrite (IH H).
Qed.

Lemma message_no_LF (n : Z) : 0 <= n -> count_LF (message n) = O.
Proof.
  intros Hn. unfold message. rewrite !count_LF_app.
  destruct (str_of_int_decimal n Hn) as (_ & _ & ->). reflexivity.
Qed.

(** C5: when the script returns, standard output is one line, the sentence
    [There are N grid points within the JASMINE extended footprint] and a
    line feed, where [N] is the final count written in decimal digits. *)
Theorem C5_one_line_of_output (lines : list string) (st : state) :
  program lines fresh = (Return tt, st) ->
  exists n,
    count st = Some n
    /\ stdout st =
       "There are " ++ str_of_int n
       ++ " grid points within the JASMINE extended footprint" ++ nl
    /\ readlines (stdout st) = [stdout st]
    /\ all_chars is_digit (str_of_int n) = true
    /\ Z_of_digits (str_of_int n) = n.
Proof.
  intros Hrun. destruct (program_returns lines st Hrun) as (n & Hn & ->).
  assert (H0 : 0 <= n) by lia.
  exists n. cbn [count stdout].
  split; [reflexivity|]. split.
  { unfold message. now rewrite !string_app_assoc. }
  split; [apply readlines_one_line, message_no_LF, H0|].
  destruct (str_of_int_decimal n H0) as (Hd & Hv & _). auto.
Qed.

(** C5 on a file of twelve lines inside the footprint: the count is printed
    as the two digits [12]. *)
Lemma C5_witness :
  let lines := repeat ("0.5 -0.5" ++ nl) 12 in
  exists st,
    program lines fresh = (Return tt, st)
    /\ stdout st =
       "There are 12 grid points within the JASMINE extended footprint" ++ nl.
Proof.
  cbv zeta.
  assert (Hrun : program (repeat ("0.5 -0.5" ++ nl) 12) fresh =
                 (Return tt, mkState (Some 12) (message 12 ++ nl)))
    by (vm_compute; reflexivity).
  destruct (C5_one_line_of_output _ _ Hrun) as (n & Hc & Hout & _).
  eexists. split; [exact Hrun|].
  cbn [count] in Hc. injection Hc as <-. exact Hout.
Defined.

(** ** Order of the lines, and what is read of a line *)

Lemma tally_data (lines : list string) :
  tally (filter is_data lines) = tally lines.
Proof.
  induction lines as [|x xs IH]; [reflexivity|].
  cbn [filter tally]. unfold is_data at 1.
  destruct (startswith x "#") eqn:Hx; cbn [negb].
  - unfold line_delta. now rewrite Hx, IH.
  - cbn [tally]. now rewrite IH.
Qed.

Lemma tally_permutation (xs ys : list string) :
  Permutation xs ys -> tally xs = tally ys.
Proof.
  induction 1 as [|x xs ys _ IH|x y xs|xs ys zs _ IH1 _ IH2]; cbn [tally].
  - reflexivity.
  - now rewrite IH.
  - destruct (line_delta x), (line_delta y); lia.
  - congruence.
Qed.

Lemma well_formed_data (lines : list string) :
  Forall (fun x => well_formed x = true) (filter is_data lines) ->
  Forall (fun x => well_formed x = true) lines.
Proof.
  rewrite !Forall_forall. intros H x Hx.
  destruct (is_data x) eqn:Hd.
  - apply H, filter_In. auto.
  - unfold is_data in Hd. apply negb_false_iff in Hd.
    unfold well_formed. now rewrite Hd.
Qed.

(** C6: for lines that are all well formed, lines whose data lines are a
    permutation of theirs make the script print the same count. *)
Theorem C6_order_independent (lines lines' : list string) :
  Forall (fun x => well_formed x = true) lines ->
  Permutation (filter is_data lines) (filter is_data lines') ->
  exists n,
    program lines fresh =
      (Return tt,
       mkState (Some n)
         ("There are " ++ str_of_int n
          ++ " grid points within the JASMINE extended footprint" ++ nl))
    /\ program lines' fresh = program lines fresh.
Proof.
  intros Hwf Hperm.
  assert (Hwf' : Forall (fun x => well_formed x = true) lines').
  { apply well_formed_data. rewrite Forall_forall in *. intros x Hx.
    apply Hwf. apply Permutation_sym in Hperm.
    apply (Permutation_in _ Hperm) in Hx. now apply filter_In in Hx. }
  assert (Ht : tally lines' = tally lines).
  { rewrite <- (tally_data lines), <- (tally_data lines').
    symmetry. now apply tally_permutation. }
  exists (tally lines).
  rewrite (program_well_formed _ Hwf), (program_well_formed _ Hwf'), Ht.
  split; [|reflexivity]. unfold message. now rewrite !string_app_assoc.
Qed.

(** C6 on three data lines and a comment, against the data lines reversed
    with the comment moved to the front. *)
Lemma C6_witness :
  program ["# c" ++ nl; "9 9" ++ nl; "1.0 1.0" ++ nl; "0 0" ++ nl] fresh =
  program ["0 0" ++ nl; "1.0 1.0" ++ nl; "# c" ++ nl; "9 9" ++ nl] fresh.
Proof.
  destruct (C6_order_independent
              ["0 0" ++ nl; "1.0 1.0" ++ nl; "# c" ++ nl; "9 9" ++ nl]
              ["# c" ++ nl; "9 9" ++ nl; "1.0 1.0" ++ nl; "0 0" ++ nl])
    as (n & _ & Heq).
  - repeat constructor.
  - change (Permutation ["0 0" ++ nl; "1.0 1.0" ++ nl; "9 9" ++ nl]
              ["9 9" ++ nl; "1.0 1.0" ++ nl; "0 0" ++ nl]).
    apply (Permutation_rev ["0 0" ++ nl; "1.0 1.0" ++ nl; "9 9" ++ nl]).
  - exact Heq.
Defined.

(** C7: the count is 0 when the loop starts.  After any number of lines
    [pre] the count [ck] is not negative; after the further lines [post] the
    count [cn] is not below [ck] and has grown by at most the number of data
    lines of [post], hence by at most one over one line, and by exactly one
    over a data line whose two numbers are in the footprint; and the count
    the script ends with is [cn], at most the number of data lines. *)
Theorem C7_counter_invariants (pre post : list string) :
  let start := snd (set_count 0 fresh) in
  count start = Some 0
  /\ exists ck cn,
       count (snd (for_each pre body start)) = Some ck
       /\ count (snd (for_each (pre ++ post) body start)) = Some cn
       /\ 0 <= ck
       /\ ck <= cn
       /\ cn - ck <= data_lines post
       /\ (forall line, post = [line] -> cn = ck \/ cn = ck + 1)
       /\ (forall line f0 f1 rest l b,
             post = [line] ->
             fst (for_each pre body start) = Return tt ->
             startswith line "#" = false ->
             split " " line = f0 :: f1 :: rest ->
             float_of_string f0 = Some l ->
             float_of_string f1 = Some b ->
             cn = if in_footprint l b then ck + 1 else ck)
       /\ cn <= data_lines (pre ++ post)
       /\ (forall r st, program (pre ++ post) fresh = (r, st) ->
           count st = Some cn).
Proof.
  cbv zeta. cbn [set_count fresh snd stdout]. split; [reflexivity|].
  destruct (for_each_body_bounds pre 0 EmptyString) as (r1 & ck & Hpre & Hk).
  assert (Hfull : exists r2 cn,
             for_each (pre ++ post) body (mkState (Some 0) EmptyString)
             = (r2, mkState (Some cn) EmptyString)
             /\ ck <= cn <= ck + data_lines post).
  { rewrite for_each_app, Hpre. destruct r1 as [[]|e].
    - apply for_each_body_bounds.
    - exists (Raise e), ck. split; [reflexivity|].
      pose proof (data_lines_nonneg post). lia. }
  destruct Hfull as (r2 & cn & Hfull & Hn).
  exists ck, cn. rewrite Hpre, Hfull. cbn [fst snd count].
  repeat split; try lia.
  - intros line ->.
    assert (H1 : data_lines [line] <= 1).
    { unfold data_lines. cbn [filter]. destruct (is_data line); simpl; lia. }
    lia.
  - intros line f0 f1 rest l b -> -> Hc Hs Hl Hb.
    rewrite for_each_app, Hpre in Hfull. cbn [for_each] in Hfull.
    unfold bind in Hfull.
    rewrite (body_data_line line f0 f1 rest l b ck _ Hc Hs Hl Hb) in Hfull.
    now injection Hfull as _ <-.
  - rewrite data_lines_app. lia.
  - intros r st. rewrite program_unfold, Hfull.
    destruct r2 as [[]|e]; cbn [count stdout]; now intros [= _ <-].
Qed.

(** C7 on two lines followed by a line in the footprint: the count goes
    from 1 to 2. *)
Lemma C7_witness :
  count (snd (for_each ["0 0" ++ nl; "# c" ++ nl; "1.0 1.0" ++ nl] body
                (mkState (Some 0) "")))
  = Some 2.
Proof.
  destruct (C7_counter_invariants ["0 0" ++ nl; "# c" ++ nl]
              ["1.0 1.0" ++ nl])
    as (_ & ck & cn & Hk & Hn & _ & _ & _ & _ & Hstep & _).
  assert (H0 : float_of_string "1.0"
               = Some (S754_finite false 4503599627370496 (-52)))
    by (vm_compute; reflexivity).
  assert (H1 : float_of_string ("1.0" ++ nl)
               = Some (S754_finite false 4503599627370496 (-52)))
    by (vm_compute; reflexivity).
  assert (Hck : ck = 1) by (vm_compute in Hk; congruence).
  specialize (Hstep _ _ _ _ _ _ eq_refl eq_refl eq_refl eq_refl H0 H1).
  change (count (snd (for_each ["0 0" ++ nl; "# c" ++ nl; "1.0 1.0" ++ nl]
                        body (mkState (Some 0) ""))) = Some cn) in Hn.
  rewrite Hn, Hstep, Hck. reflexivity.
Defined.

Lemma same_l_b_delta (x y : string) :
  same_l_b x y -> line_delta x = line_delta y.
Proof.
  intros [Hc Hf]. unfold line_delta. rewrite <- Hc.
  destruct (startswith x "#"); [reflexivity|].
  specialize (Hf eq_refl).
  assert (H0 : nth_error (split " " x) 0 = nth_error (split " " y) 0).
  { pose proof (nth_error_firstn 2 (split " " x) 0) as Hx.
    pose proof (nth_error_firstn 2 (split " " y) 0) as Hy.
    cbn [Nat.ltb Nat.leb] in Hx, Hy. congruence. }
  assert (H1 : nth_error (split " " x) 1 = nth_error (split " " y) 1).
  { pose proof (nth_error_firstn 2 (split " " x) 1) as Hx.
    pose proof (nth_error_firstn 2 (split " " y) 1) as Hy.
    cbn [Nat.ltb Nat.leb] in Hx, Hy. congruence. }
  now rewrite H0, H1.
Qed.

(** C8: two inputs of the same number of lines whose lines agree, one by
    one, on starting with [#] and, for data lines, on fields 0 and 1 of the
    split, have the same outcome and the same final state, the count with
    it; so when one is well formed both print the same count.  Fields
    after the second have no influence. *)
Theorem C8_only_first_two_fields (xs ys : list string) :
  Forall2 same_l_b xs ys ->
  program xs fresh = program ys fresh.
Proof.
  intros Hagree. rewrite !program_unfold.
  rewrite (for_each_delta_ext xs ys); [reflexivity|].
  induction Hagree as [|x y xs ys Hxy _ IH]; [reflexivity|].
  cbn [map]. now rewrite (same_l_b_delta _ _ Hxy), IH.
Qed.

(** C8 on two files that differ after the second field only. *)
Lemma C8_witness :
  program ["1.0 1.0 x" ++ nl; "#a" ++ nl; "3.5 0 7 8" ++ nl] fresh =
  program ["1.0 1.0 0.25 y" ++ nl; "# b c" ++ nl; "3.5 0 z" ++ nl] fresh.
Proof.
  apply C8_only_first_two_fields.
  repeat constructor; try reflexivity; discriminate.
Defined.

(** ** Blank lines *)

Lemma blank_char_cases (c : ascii) :
  is_blank_char c = true ->
  Ascii.eqb c "_" = false /\ c <> "#"%char
  /\ (is_space c = true \/ In c ["028"; "029"; "030"; "031"]%char).
Proof.
  destruct c as [[] [] [] [] [] [] [] []]; intros H;
    try discriminate H; (split; [reflexivity|]); (split; [discriminate|]);
    vm_compute; tauto.
Qed.

Lemma remove_underscores_blank (prev : ascii) (s : string) :
  Ascii.eqb prev "_" = false ->
  all_chars is_blank_char s = true ->
  remove_underscores prev s = Some s.
Proof.
  revert prev; induction s as [|c s IH]; intros prev Hp; cbn [all_chars].
  - intros _. cbn [remove_underscores]. now rewrite Hp.
  - intros H. apply andb_true_iff in H. destruct H as [Hc Hs].
    destruct (blank_char_cases c Hc) as (Hu & _ & _).
    cbn [remove_underscores]. rewrite Hu, Hp. cbn [andb].
    now rewrite (IH c Hu Hs).
Qed.

(** After the blanks [float] skips, a blank string is empty or starts with
    one of the four separators [float] does not skip. *)
Lemma skip_spaces_blank (s : string) :
  all_chars is_blank_char s = true ->
  skip_spaces s = EmptyString
  \/ exists c r, skip_spaces s = String c r
                 /\ In c ["028"; "029"; "030"; "031"]%char.
Proof.
  unfold skip_spaces.
  induction s as [|c s IH]; cbn [all_chars span]; [now left|].
  intros H. apply andb_true_iff in H. destruct H as [Hc Hs].
  destruct (is_space c) eqn:Hsp.
  - specialize (IH Hs). destruct (span is_space s) as [a b]. exact IH.
  - right. exists c, s. split; [reflexivity|].
    destruct (blank_char_cases c Hc) as (_ & _ & [H|H]); [congruence|exact H].
Qed.

(** [float] raises [ValueError] on a string of blanks. *)
Lemma float_of_string_blank (s : string) :
  all_chars is_blank_char s = true -> float_of_string s = None.
Proof.
  intros Hs. unfold float_of_string.
  rewrite (remove_underscores_blank NUL s eq_refl Hs).
  destruct (skip_spaces_blank s Hs) as [->|(c & r & -> & Hc)];
    [reflexivity|].
  cbn [In] in Hc.
  destruct Hc as [<-|[<-|[<-|[<-|[]]]]]; reflexivity.
Qed.

(** Field 0 of a split keeps a property all characters of the line have. *)
Lemma split_first_field (p : ascii -> bool) (sep : ascii) (s : string) :
  all_chars p s = true ->
  exists f fs, split sep s = f :: fs /\ all_chars p f = true.
Proof.
  induction s as [|c s IH]; cbn [all_chars split].
  - intros _. exists EmptyString, []. auto.
  - intros H. apply andb_true_iff in H. destruct H as [Hc Hs].
    destruct (Ascii.eqb c sep).
    + exists EmptyString, (split sep s). auto.
    + destruct (IH Hs) as (f & fs & -> & Hf).
      exists (String c f), fs. split; [reflexivity|].
      cbn [all_chars]. now rewrite Hc, Hf.
Qed.

Lemma blank_not_comment (line : string) :
  is_blank line = true -> startswith line "#" = false.
Proof.
  unfold is_blank, startswith. destruct line as [|c s]; [reflexivity|].
  cbn [all_chars prefix]. intros H. apply andb_true_iff in H.
  destruct H as [Hc _]. destruct (blank_char_cases c Hc) as (_ & Hn & _).
  destruct (ascii_dec "#" c) as [<-|_]; [now elim Hn|reflexivity].
Qed.

(** C10: a blank line (empty, or of blanks only, its line feed among them)
    is not skipped: it does not start with [#], field 0 of its split is no
    number for [float], and the loop raises [ValueError] on it with the state
    as it was.  With such a line among the lines the script ends with an
    uncaught exception and has written nothing to standard output. *)
Theorem C10_blank_line_is_fatal (lines : list string) (line : string) :
  In line lines ->
  is_blank line = true ->
  startswith line "#" = false
  /\ float_of_string (nth 0 (split " " line) "") = None
  /\ (forall st, body line st = (Raise ValueError, st))
  /\ exists e st,
       program lines fresh = (Raise e, st)
       /\ (e = ValueError \/ e = IndexError)
       /\ stdout st = "".
Proof.
  intros Hin Hb.
  pose proof (blank_not_comment line Hb) as Hc.
  destruct (split_first_field is_blank_char " " line Hb) as (f & fs & Hs & Hf).
  pose proof (float_of_string_blank f Hf) as Hfl.
  split; [exact Hc|]. split; [now rewrite Hs|]. split.
  - intros st. unfold body. rewrite Hc, Hs.
    unfold bind, getitem, to_float. cbn [nth_error]. unfold ret at 1.
    now rewrite Hfl.
  - assert (Hd : line_delta line = Raise ValueError).
    { unfold line_delta. rewrite Hc, Hs. cbn [nth_error]. now rewrite Hfl. }
    destruct (program_raises lines line _ Hin Hd) as (e & st & Hp & Ho & He).
    exists e, st. auto.
Qed.

(** C10 on a file whose second line is a line feed alone. *)
Lemma C10_witness :
  exists e st,
    program ["1.0 1.0" ++ nl; nl; "0 0" ++ nl] fresh = (Raise e, st)
    /\ (e = ValueError \/ e = IndexError)
    /\ stdout st = "".
Proof.
  apply (C10_blank_line_is_fatal ["1.0 1.0" ++ nl; nl; "0 0" ++ nl] nl).
  - right; left; reflexivity.
  - reflexivity.
Defined.

(** ** The outcome of the script on any input *)

Lemma line_delta_counted (line : string) :
  match line_delta line with
  | Return d => d = if counted line then 1 else 0
  | Raise _ => counted line = false
  end.
Proof.
  unfold line_delta, counted.
  destruct (startswith line "#"); cbn [negb andb]; [reflexivity|].
  destruct (split " " line) as [|f0 [|f1 fs]]; cbn [nth_error];
    try reflexivity.
  - destruct (float_of_string f0); reflexivity.
  - destruct (float_of_string f0); [|reflexivity].
    destruct (float_of_string f1); reflexivity.
Qed.

Lemma tally_counted (lines : list string) :
  tally lines = Z.of_nat (List.length (filter counted lines)).
Proof.
  induction lines as [|x xs IH]; [reflexivity|].
  cbn [tally filter]. pose proof (line_delta_counted x) as Hx.
  destruct (line_delta x) as [d|e].
  - subst d. destruct (counted x); cbn [List.length]; lia.
  - rewrite Hx. exact IH.
Qed.

Lemma ill_formed_raises (line : string) :
  well_formed line = false -> exists e, line_delta line = Raise e.
Proof.
  intros H. destruct (line_delta line) as [d|e] eqn:Hd; [|eauto].
  assert (Hw : well_formed line = true) by (apply well_formed_delta; eauto).
  congruence.
Qed.

Lemma first_ill_formed (lines : list string) :
  Forall (fun x => well_formed x = true) lines
  \/ exists pre bad post,
       lines = (pre ++ bad :: post)%list
       /\ Forall (fun x => well_formed x = true) pre
       /\ well_formed bad = false.
Proof.
  induction lines as [|x xs [IH|(pre & bad & post & -> & Hpre & Hbad)]].
  - left. constructor.
  - destruct (well_formed x) eqn:Hx.
    + left. now constructor.
    + right. exists [], x, xs. repeat split; [constructor|exact Hx].
  - destruct (well_formed x) eqn:Hx.
    + right. exists (x :: pre), bad, post. repeat split; [|exact Hbad].
      now constructor.
    + right. exists [], x, (pre ++ bad :: post)%list.
      repeat split; [constructor|exact Hx].
Qed.

Lemma program_first_failure (pre post : list string) (bad : string) (e : exn) :
  Forall (fun x => well_formed x = true) pre ->
  line_delta bad = Raise e ->
  program (pre ++ bad :: post) fresh
  = (Raise e, mkState (Some (tally pre)) "").
Proof.
  intros Hpre Hbad. rewrite program_unfold, for_each_app.
  rewrite (for_each_well_formed pre 0 "" Hpre). cbn [for_each].
  unfold bind. rewrite body_line_delta, Hbad. reflexivity.
Qed.

(** X6: the outcome of the script on any lines.  Either every line is well
    formed, and the script returns having printed the number of counted
    lines; or there is a first line that is not, the loop raises on it in
    any state, and the script ends with that exception, nothing printed,
    the count at the number of counted lines before it. *)
Theorem program_outcome (lines : list string) :
  (Forall (fun x => well_formed x = true) lines
   /\ let n := Z.of_nat (List.length (filter counted lines)) in
      program lines fresh =
      (Return tt,
       mkState (Some n)
         ("There are " ++ str_of_int n
          ++ " grid points within the JASMINE extended footprint" ++ nl)))
  \/ (exists pre bad post e,
        lines = (pre ++ bad :: post)%list
        /\ Forall (fun x => well_formed x = true) pre
        /\ well_formed bad = false
        /\ (e = ValueError \/ e = IndexError)
        /\ (forall st, body bad st = (Raise e, st))
        /\ program lines fresh =
           (Raise e,
            mkState (Some (Z.of_nat (List.length (filter counted pre)))) "")).
Proof.
  destruct (first_ill_formed lines)
    as [Hwf|(pre & bad & post & -> & Hpre & Hbad)].
  - left. split; [exact Hwf|]. cbv zeta.
    rewrite (program_well_formed _ Hwf), tally_counted.
    unfold message. now rewrite !string_app_assoc.
  - right. destruct (ill_formed_raises bad Hbad) as [e He].
    exists pre, bad, post, e. repeat split; try assumption.
    + exact (line_delta_exn bad e He).
    + intros st. now apply body_raises.
    + rewrite (program_first_failure pre post bad e Hpre He).
      now rewrite tally_counted.
Qed.

(** X7: the script returns exactly on the inputs whose lines are all well
    formed. *)
Theorem program_returns_iff (lines : list string) :
  (exists st, program lines fresh = (Return tt, st))
  <-> Forall (fun x => well_formed x = true) lines.
Proof.
  split.
  - intros [st Hrun].
    destruct (first_ill_formed lines)
      as [Hwf|(pre & bad & post & -> & Hpre & Hbad)]; [exact Hwf|].
    destruct (ill_formed_raises bad Hbad) as [e He].
    rewrite (program_first_failure pre post bad e Hpre He) in Hrun.
    discriminate.
  - intros Hwf. eexists. apply (program_well_formed _ Hwf).
Qed.

(** ** Which exception a line raises *)

Lemma split_no_sep (sep : ascii) (s : string) :
  contains sep s = false -> split sep s = [s].
Proof.
  induction s as [|a s IH]; [reflexivity|]. cbn [contains split].
  intros H. apply orb_false_iff in H. destruct H as [Ha Hs].
  now rewrite Ha, (IH Hs).
Qed.

Lemma split_with_sep (sep : ascii) (s : string) :
  contains sep s = true -> exists f0 f1 fs, split sep s = f0 :: f1 :: fs.
Proof.
  induction s as [|a s IH]; [discriminate|]. cbn [contains split].
  pose proof (split_nonempty sep s) as Hne.
  destruct (Ascii.eqb a sep); cbn [orb].
  - intros _. destruct (split sep s) as [|f fs]; [congruence|]. eauto.
  - intros H. destruct (IH H) as (f0 & f1 & fs & ->). eauto.
Qed.

(** X8: which exception a data line raises.  A line without a space has one
    field, and the loop always raises on it: [IndexError] when that field is
    a number (at [line_s[1]]) and [ValueError] when it is not (at
    [float(line_s[0])]).  A line with a space that is not well formed raises
    [ValueError], never [IndexError]. *)
Theorem exception_kind (line : string) (st : state) :
  startswith line "#" = false ->
  (contains " " line = false ->
   body line st =
   (Raise match float_of_string line with
          | Some _ => IndexError
          | None => ValueError
          end, st))
  /\ (contains " " line = true ->
      well_formed line = false ->
      body line st = (Raise ValueError, st)).
Proof.
  intros Hc. split.
  - intros Hno. apply body_raises. unfold line_delta.
    rewrite Hc, (split_no_sep _ _ Hno). cbn [nth_error].
    destruct (float_of_string line); reflexivity.
  - intros Hsp Hbad. apply body_raises.
    destruct (split_with_sep _ _ Hsp) as (f0 & f1 & fs & Hs).
    unfold well_formed in Hbad. rewrite Hc, Hs in Hbad. cbn [orb] in Hbad.
    unfold line_delta. rewrite Hc, Hs. cbn [nth_error].
    destruct (float_of_string f0); [|reflexivity].
    destruct (float_of_string f1); [discriminate|reflexivity].
Qed.

Lemma exception_kind_witness :
  body ("2.5" ++ nl) fresh = (Raise IndexError, fresh)
  /\ body ("2.5 x" ++ nl) fresh = (Raise ValueError, fresh).
Proof.
  split.
  - assert (H : float_of_string ("2.5" ++ nl)
                = Some (S754_finite false 5629499534213120 (-51)))
      by (vm_compute; reflexivity).
    rewrite (proj1 (exception_kind ("2.5" ++ nl) fresh eq_refl) eq_refl), H.
    reflexivity.
  - assert (H : well_formed ("2.5 x" ++ nl) = false)
      by (vm_compute; reflexivity).
    exact (proj2 (exception_kind ("2.5 x" ++ nl) fresh eq_refl) eq_refl H).
Defined.

(** ** The footprint is symmetric *)

Lemma SFcompare_opp (x y : float) :
  SFcompare (SFopp x) (SFopp y) = SFcompare y x.
Proof.
  destruct x as [sx|sx| |sx mx ex], y as [sy|sy| |sy my ey];
    cbn [SFopp SFcompare]; try reflexivity;
    try (destruct sx; reflexivity); try (destruct sy; reflexivity);
    try (destruct sx, sy; reflexivity).
  destruct sx, sy; cbn [negb]; try reflexivity.
  - rewrite (Z.compare_antisym ey ex).
    destruct (ey ?= ex); cbn [CompOpp]; try reflexivity.
    now rewrite Pos.compare_cont_antisym.
  - rewrite (Z.compare_antisym ey ex).
    destruct (ey ?= ex); cbn [CompOpp]; try reflexivity.
    now rewrite Pos.compare_cont_antisym.
Qed.

Lemma SFopp_involutive (x : float) : SFopp (SFopp x) = x.
Proof. destruct x as [[]|[]| |[] m e]; reflexivity. Qed.

Lemma SFltb_opp_opp (x y : float) : SFltb (SFopp x) (SFopp y) = SFltb y x.
Proof. unfold SFltb. now rewrite SFcompare_opp. Qed.

Lemma SFltb_opp (x y : float) : SFltb (SFopp x) y = SFltb (SFopp y) x.
Proof.
  rewrite <- (SFopp_involutive y) at 1. apply SFltb_opp_opp.
Qed.

(** X10: the test of line 11 is symmetric: changing the sign of [l], or of
    [b], a zero or a NaN too, does not change whether the line is counted. *)
Theorem in_footprint_symmetric (l b : float) :
  in_footprint (float_neg l) b = in_footprint l b
  /\ in_footprint l (float_neg b) = in_footprint l b.
Proof.
  unfold in_footprint, float_gt, float_lt, float_neg.
  rewrite !SFltb_opp_opp, (SFltb_opp l lit_3_1), (SFltb_opp b lit_1_8).
  split.
  - now rewrite (andb_comm (SFltb l lit_3_1)).
  - now rewrite (andb_comm (SFltb b lit_1_8)).
Qed.

(** ** Blanks around a number *)

Lemma space_char_cases (c : ascii) :
  is_space c = true ->
  In c ["009"; "010"; "011"; "012"; "013"; " "; "133"; "160"]%char.
Proof.
  destruct c as [[] [] [] [] [] [] [] []]; intros H;
    try discriminate H; cbn [In]; tauto.
Qed.

(** What matters of a blank to the parser: it is no digit, sign, point,
    exponent letter or underscore, and starts neither [inf] nor [nan]. *)
Lemma space_char_facts (c : ascii) :
  is_space c = true ->
  is_digit c = false
  /\ Ascii.eqb c "_" = false
  /\ Ascii.eqb c "." = false
  /\ Ascii.eqb c "e" = false /\ Ascii.eqb c "E" = false
  /\ (forall w, parse_sign (String c w) = (false, String c w))
  /\ (forall a p w, In a ["i"; "n"; "f"; "a"; "t"; "y"]%char ->
        match_nocase (String a p) (String c w) = None).
Proof.
  intros H. apply space_char_cases in H. cbn [In] in H.
  destruct H as [<-|[<-|[<-|[<-|[<-|[<-|[<-|[<-|[]]]]]]]]];
    (repeat split; try reflexivity;
     intros a p w Ha; cbn [In] in Ha;
     destruct Ha as [<-|[<-|[<-|[<-|[<-|[<-|[]]]]]]]; reflexivity).
Qed.

Lemma span_app_stop (p : ascii -> bool) (s : string) (c : ascii) (w : string) :
  p c = false ->
  span p (s ++ String c w)
  = (fst (span p s), snd (span p s) ++ String c w).
Proof.
  intros Hc. induction s as [|a s IH]; cbn [append span fst snd].
  - now rewrite Hc.
  - destruct (p a); [|reflexivity].
    rewrite IH. now destruct (span p s).
Qed.

Lemma match_dot {A} (a : ascii) (x y : A) :
  match a with "."%char => x | _ => y end = if Ascii.eqb a "." then x else y.
Proof. destruct a as [[] [] [] [] [] [] [] []]; reflexivity. Qed.

Lemma parse_sign_cons (a : ascii) (s w : string) :
  parse_sign (String a s ++ w)
  = (fst (parse_sign (String a s)), snd (parse_sign (String a s)) ++ w).
Proof. destruct a as [[] [] [] [] [] [] [] []]; reflexivity. Qed.

Section TrailingBlank.
Variable c : ascii.
Hypothesis Hc : is_space c = true.

Lemma parse_sign_blank (s : string) :
  parse_sign (s ++ String c "")
  = (fst (parse_sign s), snd (parse_sign s) ++ String c "").
Proof.
  destruct s as [|a s]; [|apply parse_sign_cons].
  destruct (space_char_facts c Hc) as (_ & _ & _ & _ & _ & Hs & _).
  apply Hs.
Qed.

Lemma parse_exponent_blank (s : string) :
  parse_exponent (s ++ String c "")
  = (fst (parse_exponent s), snd (parse_exponent s) ++ String c "").
Proof.
  destruct (space_char_facts c Hc) as (Hd & _ & _ & He & HE & _ & _).
  destruct s as [|a s]; cbn [append parse_exponent fst snd].
  - cbn [parse_exponent]. now rewrite He, HE.
  - destruct (Ascii.eqb a "e" || Ascii.eqb a "E"); [|reflexivity].
    rewrite parse_sign_blank. destruct (parse_sign s) as [neg s2].
    cbn [fst snd]. rewrite (span_app_stop _ _ _ _ Hd).
    destruct (span is_digit s2) as [ds s3]. cbn [fst snd].
    destruct ds; reflexivity.
Qed.

Lemma parse_decimal_blank (s : string) :
  parse_decimal (s ++ String c "")
  = option_map (fun r => (fst r, snd r ++ String c "")) (parse_decimal s).
Proof.
  destruct (space_char_facts c Hc) as (Hd & _ & Hdot & _).
  unfold parse_decimal. rewrite parse_sign_blank.
  destruct (parse_sign s) as [neg s1]. cbn [fst snd].
  rewrite (span_app_stop _ _ _ _ Hd).
  destruct (span is_digit s1) as [ip s2]. cbn [fst snd].
  assert (E : match s2 ++ String c "" with
              | String "." t => span is_digit t
              | _ => (EmptyString, s2 ++ String c "")
              end
              = (fst match s2 with
                     | String "." t => span is_digit t
                     | _ => (EmptyString, s2)
                     end,
                 snd match s2 with
                     | String "." t => span is_digit t
                     | _ => (EmptyString, s2)
                     end ++ String c "")).
  { destruct s2 as [|a t]; cbn [append].
    - rewrite match_dot, Hdot. reflexivity.
    - rewrite !match_dot. destruct (Ascii.eqb a "."); [|reflexivity].
      now rewrite (span_app_stop _ _ _ _ Hd). }
  rewrite E.
  destruct (match s2 with
            | String "." t => span is_digit t
            | _ => (EmptyString, s2)
            end) as [fp s3]. cbn [fst snd].
  destruct (ip ++ fp) as [|d ds]; [reflexivity|].
  rewrite parse_exponent_blank.
  destruct (parse_exponent s3) as [ex s4]. reflexivity.
Qed.

Lemma match_nocase_blank (p s : string) :
  all_chars (fun a => existsb (Ascii.eqb a) ["i"; "n"; "f"; "a"; "t"; "y"]%char) p
  = true ->
  match_nocase p (s ++ String c "") = option_map (fun r => r ++ String c "") (match_nocase p s).
Proof.
  destruct (space_char_facts c Hc) as (_ & _ & _ & _ & _ & _ & Hm).
  revert s; induction p as [|a p IH]; intros s Hp.
  - now destruct s.
  - cbn [all_chars] in Hp. apply andb_true_iff in Hp. destruct Hp as [Ha Hp].
    destruct s as [|b s]; cbn [append].
    + apply Hm. apply existsb_exists in Ha.
      destruct Ha as (x & Hx & Hax). apply Ascii.eqb_eq in Hax. now subst.
    + cbn [match_nocase]. destruct (Ascii.eqb (to_lower b) a); [|reflexivity].
      now apply IH.
Qed.

Lemma parse_inf_or_nan_blank (s : string) :
  parse_inf_or_nan (s ++ String c "")
  = option_map (fun r => (fst r, snd r ++ String c "")) (parse_inf_or_nan s).
Proof.
  unfold parse_inf_or_nan. rewrite parse_sign_blank.
  destruct (parse_sign s) as [neg s1]. cbn [fst snd].
  rewrite (match_nocase_blank "inf" s1 eq_refl).
  destruct (match_nocase "inf" s1) as [s2|]; cbn [option_map].
  - rewrite (match_nocase_blank "inity" s2 eq_refl).
    destruct (match_nocase "inity" s2); reflexivity.
  - rewrite (match_nocase_blank "nan" s1 eq_refl).
    destruct (match_nocase "nan" s1); reflexivity.
Qed.

Lemma skip_spaces_blank_end (s : string) :
  skip_spaces (s ++ String c "")
  = match skip_spaces s with
    | EmptyString => EmptyString
    | t => t ++ String c ""
    end.
Proof.
  unfold skip_spaces.
  induction s as [|a s IH]; cbn [append span].
  - cbn [span]. now rewrite Hc.
  - destruct (is_space a) eqn:Ha; [|reflexivity].
    destruct (span is_space (s ++ String c "")) as [u v].
    destruct (span is_space s) as [u' v']. exact IH.
Qed.

Lemma remove_underscores_blank_end (prev : ascii) (s : string) :
  remove_underscores prev (s ++ String c "")
  = option_map (fun r => r ++ String c "") (remove_underscores prev s).
Proof.
  destruct (space_char_facts c Hc) as (Hd & Hu & _).
  revert prev; induction s as [|a s IH]; intros prev;
    cbn [append remove_underscores].
  - cbn [remove_underscores]. rewrite Hu, Hd. cbn [negb].
    rewrite andb_true_r. destruct (Ascii.eqb prev "_"); reflexivity.
  - destruct (Ascii.eqb a "_").
    + destruct (is_digit prev); [apply IH|reflexivity].
    + destruct (Ascii.eqb prev "_" && negb (is_digit a)); [reflexivity|].
      rewrite IH. now destruct (remove_underscores a s).
Qed.

(** A blank after a string does not change what [float] makes of it. *)
Lemma float_of_string_blank_end (s : string) :
  float_of_string (s ++ String c "") = float_of_string s.
Proof.
  unfold float_of_string. rewrite remove_underscores_blank_end.
  destruct (remove_underscores NUL s) as [s0|]; [|reflexivity].
  cbn [option_map]. cbv zeta. rewrite skip_spaces_blank_end.
  destruct (skip_spaces s0) as [|a t] eqn:Hs0; [reflexivity|].
  rewrite parse_decimal_blank, parse_inf_or_nan_blank.
  destruct (parse_decimal (String a t)) as [[x r]|]; cbn [option_map fst snd].
  - rewrite skip_spaces_blank_end. now destruct (skip_spaces r).
  - destruct (parse_inf_or_nan (String a t)) as [[x r]|];
      cbn [option_map fst snd]; [|reflexivity].
    rewrite skip_spaces_blank_end. now destruct (skip_spaces r).
Qed.
End TrailingBlank.

Lemma remove_underscores_prev (p1 p2 : ascii) (s : string) :
  is_digit p1 = is_digit p2 ->
  Ascii.eqb p1 "_" = Ascii.eqb p2 "_" ->
  remove_underscores p1 s = remove_underscores p2 s.
Proof.
  intros Hd Hu. destruct s; cbn [remove_underscores]; now rewrite ?Hd, ?Hu.
Qed.

Lemma float_of_string_blank_start (c : ascii) (s : string) :
  is_space c = true -> float_of_string (String c s) = float_of_string s.
Proof.
  intros Hc. destruct (space_char_facts c Hc) as (Hd & Hu & _).
  unfold float_of_string. cbn [remove_underscores]. rewrite Hu.
  change (Ascii.eqb NUL "_") with false. cbn [andb].
  rewrite (remove_underscores_prev c NUL s Hd Hu).
  destruct (remove_underscores NUL s) as [s0|]; [|reflexivity].
  cbn [option_map]. cbv zeta.
  assert (E : skip_spaces (String c s0) = skip_spaces s0).
  { unfold skip_spaces. cbn [span]. rewrite Hc.
    now destruct (span is_space s0). }
  now rewrite E.
Qed.

Lemma string_app_empty (s : string) : s ++ "" = s.
Proof. induction s as [|a s IH]; [reflexivity|]. cbn [append]. now rewrite IH. Qed.

(** X11: [float] reads a field as if the blanks around it were not there.  So
    the line feed that ends the last field of a line, a carriage return
    before it, or tabs beside the separating space change nothing. *)
Theorem float_of_string_strip (u s v : string) :
  all_chars is_space u = true ->
  all_chars is_space v = true ->
  float_of_string (u ++ s ++ v) = float_of_string s.
Proof.
  intros Hu Hv.
  assert (Hend : forall t, float_of_string (t ++ v) = float_of_string t).
  { clear Hu. induction v as [|c v IH]; intros t.
    - now rewrite string_app_empty.
    - cbn [all_chars] in Hv. apply andb_true_iff in Hv. destruct Hv as [Hc Hv].
      change (String c v) with (String c EmptyString ++ v).
      rewrite <- string_app_assoc, (IH Hv).
      now apply float_of_string_blank_end. }
  induction u as [|c u IH]; cbn [append].
  - apply Hend.
  - cbn [all_chars] in Hu. apply andb_true_iff in Hu. destruct Hu as [Hc Hu].
    rewrite (float_of_string_blank_start c _ Hc). now apply IH.
Qed.

Lemma float_of_string_strip_witness :
  float_of_string (String HT "2.0" ++ String "013" nl)
  = float_of_string "2.0".
Proof.
  exact (float_of_string_strip (String HT "") "2.0" (String "013" nl)
           eq_refl eq_refl).
Defined.

(** ** The line feed that ends the file *)

Lemma split_last (sep c : ascii) (s : string) :
  Ascii.eqb c sep = false ->
  exists fs l,
    split sep s = (fs ++ [l])%list
    /\ split sep (s ++ String c "") = (fs ++ [(l ++ String c "")%string])%list.
Proof.
  intros Hc. induction s as [|a s (fs & l & Hs & Hs')]; cbn [append split].
  - exists [], "". rewrite Hc. split; reflexivity.
  - rewrite Hs, Hs'. destruct (Ascii.eqb a sep).
    + exists ("" :: fs), l. split; reflexivity.
    + destruct fs as [|f fs]; cbn [List.app].
      * exists [], (String a l). split; reflexivity.
      * exists (String a f :: fs), l. split; reflexivity.
Qed.

Lemma line_delta_fields (line : string) :
  line_delta line =
  if startswith line "#" then Return 0
  else
    let fs := map float_of_string (split " " line) in
    match nth_error fs 0 with
    | None => Raise IndexError
    | Some None => Raise ValueError
    | Some (Some l) =>
        match nth_error fs 1 with
        | None => Raise IndexError
        | Some None => Raise ValueError
        | Some (Some b) => Return (if in_footprint l b then 1 else 0)
        end
    end.
Proof.
  unfold line_delta. destruct (startswith line "#"); [reflexivity|].
  cbv zeta. rewrite !nth_error_map.
  destruct (nth_error (split " " line) 0) as [f0|]; [|reflexivity].
  cbn [option_map]. destruct (float_of_string f0); [|reflexivity].
  destruct (nth_error (split " " line) 1) as [f1|]; reflexivity.
Qed.

(** The line feed at the end of a line does not change what the line adds. *)
Lemma line_delta_LF (line : string) :
  line_delta (line ++ nl) = line_delta line.
Proof.
  rewrite !line_delta_fields.
  assert (Hst : startswith (line ++ nl) "#" = startswith line "#").
  { destruct line as [|a line]; [reflexivity|].
    unfold startswith. cbn [append prefix].
    destruct (ascii_dec "#" a); [now destruct line|reflexivity]. }
  rewrite Hst. destruct (startswith line "#"); [reflexivity|].
  destruct (split_last " " LF line eq_refl) as (fs & l & Hs & Hs').
  fold nl in Hs'. rewrite Hs, Hs', !map_app. cbn [map].
  pose proof (float_of_string_blank_end LF eq_refl l) as Hl.
  fold nl in Hl. now rewrite Hl.
Qed.

Lemma readlines_last (t : string) (c : ascii) :
  Ascii.eqb c LF = false ->
  exists ls l,
    readlines (t ++ String c "") = (ls ++ [l])%list
    /\ readlines (t ++ String c "" ++ nl) = (ls ++ [(l ++ nl)%string])%list.
Proof.
  intros Hc. induction t as [|a t (ls & l & H1 & H2)]; cbn [append readlines].
  - rewrite Hc. exists [], (String c ""). split; reflexivity.
  - cbn [append] in H2. rewrite H1, H2. destruct (Ascii.eqb a LF).
    + exists (nl :: ls), l. split; reflexivity.
    + destruct ls as [|x xs]; cbn [List.app].
      * exists [], (String a l). split; reflexivity.
      * exists (String a x :: xs), l. split; reflexivity.
Qed.

(** X12: whether the file ends with a line feed or not makes no difference:
    a text whose last character is no line feed, and the same text with a
    line feed added, give the same outcome and the same final state. *)
Theorem final_line_feed (t : string) (c : ascii) :
  Ascii.eqb c LF = false ->
  main (Some (t ++ String c "" ++ nl)) fresh
  = main (Some (t ++ String c "")) fresh.
Proof.
  intros Hc. cbn [main].
  destruct (readlines_last t c Hc) as (ls & l & -> & ->).
  rewrite !program_unfold.
  rewrite (for_each_delta_ext (ls ++ [l ++ nl]) (ls ++ [l])); [reflexivity|].
  rewrite !map_app. cbn [map]. now rewrite line_delta_LF.
Qed.

Lemma final_line_feed_witness :
  main (Some ("1 1" ++ nl ++ "2 x" ++ nl)) fresh
  = main (Some ("1 1" ++ nl ++ "2 x")) fresh.
Proof.
  exact (final_line_feed ("1 1" ++ nl ++ "2 ") "x" eq_refl).
Defined.

(** ** One file after another *)

Lemma readlines_empty (t : string) : readlines t = [] -> t = "".
Proof.
  destruct t as [|a t]; [reflexivity|]. cbn [readlines].
  destruct (Ascii.eqb a LF); [discriminate|].
  destruct (readlines t); discriminate.
Qed.

Lemma readlines_app (t t2 : string) :
  readlines ((t ++ nl) ++ t2) = (readlines (t ++ nl) ++ readlines t2)%list.
Proof.
  induction t as [|a t IH]; [reflexivity|].
  cbn [append readlines]. destruct (Ascii.eqb a LF).
  - cbn [List.app]. f_equal. exact IH.
  - rewrite IH. destruct (readlines (t ++ nl)) as [|l ls] eqn:E.
    + apply readlines_empty in E. now destruct t.
    + reflexivity.
Qed.

(** X13: one file after another.  For a first text that ends with a line
    feed: when the script raises on it, it raises the same on the two texts
    put together, with the same final state; when it returns on it with
    count [n1], it ends on the two together as it ends on the second text
    alone (returning, or raising the same exception), with [n1] more in the
    count. *)
Theorem main_concat (t t2 : string) :
  (forall e st,
     main (Some (t ++ nl)) fresh = (Raise e, st) ->
     main (Some ((t ++ nl) ++ t2)) fresh = (Raise e, st))
  /\ (forall st1 n1 r st2 n2,
        main (Some (t ++ nl)) fresh = (Return tt, st1) ->
        count st1 = Some n1 ->
        main (Some t2) fresh = (r, st2) ->
        count st2 = Some n2 ->
        exists st,
          main (Some ((t ++ nl) ++ t2)) fresh = (r, st)
          /\ count st = Some (n1 + n2)
          /\ (forall e, r = Raise e -> stdout st = "")).
Proof.
  cbn [main]. rewrite readlines_app.
  set (xs := readlines (t ++ nl)). set (ys := readlines t2).
  rewrite !program_unfold, for_each_app.
  destruct (for_each_body_bounds xs 0 "") as (r1 & c1 & -> & _).
  split.
  - intros e st. destruct r1 as [[]|e1]; [cbn [count]; discriminate|].
    trivial.
  - intros st1 n1 r st2 n2. destruct r1 as [[]|e1]; [|discriminate].
    cbn [count stdout]. intros [= <-]. cbn [count]. intros [= <-].
    destruct (for_each_shift ys 0 c1 "") as (r2 & c2 & -> & Hshift).
    cbn [Z.add] in Hshift. rewrite Hshift.
    destruct r2 as [[]|e2]; cbn [count stdout]; intros [= <- <-];
      cbn [count]; intros [= <-]; eexists;
      (split; [reflexivity|]); cbn [count stdout];
      (split; [f_equal; lia|]); [discriminate|reflexivity].
Qed.

Lemma main_concat_witness :
  exists st,
    main (Some (("1 1" ++ nl) ++ "0 0" ++ nl ++ "x")) fresh
    = (Raise ValueError, st)
    /\ count st = Some 2.
Proof.
  assert (H1 : main (Some ("1 1" ++ nl)) fresh
               = (Return tt, mkState (Some 1) (message 1 ++ nl)))
    by (vm_compute; reflexivity).
  assert (H2 : main (Some ("0 0" ++ nl ++ "x")) fresh
               = (Raise ValueError, mkState (Some 1) ""))
    by (vm_compute; reflexivity).
  destruct (proj2 (main_concat "1 1" ("0 0" ++ nl ++ "x"))
              _ 1 _ _ 1 H1 eq_refl H2 eq_refl)
    as (st & Hrun & Hcount & _).
  exists st. split; [exact Hrun|exact Hcount].
Defined.

(** ** Empty fields *)

Lemma split_app_sep (sep : ascii) (f r : string) :
  contains sep f = false ->
  split sep (f ++ String sep r) = f :: split sep r.
Proof.
  induction f as [|a f IH]; cbn [contains append split].
  - intros _. now rewrite Ascii.eqb_refl.
  - intros H. apply orb_false_iff in H. destruct H as [Ha Hf].
    now rewrite Ha, (IH Hf).
Qed.

(** X9: an empty field 0 or field 1 is fatal.  On a line that starts with a
    space (a [#] after the space does not make it a comment), and on a data
    line with two spaces in a row after its first field, the loop raises
    [ValueError], whatever the numbers on the line. *)
Theorem empty_field_is_fatal (line f0 r : string) (st : state) :
  line = " " ++ r
  \/ (startswith line "#" = false
      /\ contains " " f0 = false
      /\ line = f0 ++ "  " ++ r) ->
  body line st = (Raise ValueError, st).
Proof.
  intros [->|(Hc & Hf & ->)]; apply body_raises; unfold line_delta.
  - reflexivity.
  - rewrite Hc. cbn [append]. rewrite (split_app_sep " " f0 _ Hf).
    cbn [split nth_error]. rewrite Ascii.eqb_refl. cbn [nth_error].
    destruct (float_of_string f0); reflexivity.
Qed.

Lemma empty_field_is_fatal_witness :
  body (" # 1.0 2.0" ++ nl) fresh = (Raise ValueError, fresh)
  /\ body ("1.0  2.0" ++ nl) fresh = (Raise ValueError, fresh).
Proof.
  split.
  - apply (empty_field_is_fatal (" # 1.0 2.0" ++ nl) ""
             ("# 1.0 2.0" ++ nl) fresh).
    left. reflexivity.
  - apply (empty_field_is_fatal ("1.0  2.0" ++ nl) "1.0" ("2.0" ++ nl) fresh).
    right. repeat split.
Defined.

(** ** Which decimal numbers are counted *)

Lemma new_location_spec (d r : Z) :
  0 <= r < d -> new_location d r = loc_of r d.
Proof.
  intros Hr. unfold new_location, new_location_even, new_location_odd, loc_of.
  destruct (Z.even d) eqn:Hev; destruct (r =? 0) eqn:H0; try reflexivity.
  f_equal. apply Z.eqb_neq in H0.
  rewrite <- Z.negb_odd in Hev. apply negb_false_iff in Hev.
  apply Z.odd_spec in Hev. destruct Hev as [k Hk].
  destruct (2 * r + 1 ?= d) eqn:Hc.
  - apply Z.compare_eq in Hc. symmetry. apply Z.compare_lt_iff. lia.
  - rewrite Z.compare_lt_iff in Hc. symmetry. apply Z.compare_lt_iff. lia.
  - rewrite Z.compare_gt_iff in Hc. symmetry. apply Z.compare_gt_iff. lia.
Qed.

Lemma loc_of_shr_record_of_loc (m : Z) (l : location) :
  loc_of_shr_record (shr_record_of_loc m l) = l.
Proof. destruct l as [|[]]; reflexivity. Qed.

Lemma shr_1_represents (mrs : shr_record) (N D : Z) :
  represents mrs N D -> represents (shr_1 mrs) N (2 * D).
Proof.
  intros (HN & HD & Hm & Hl).
  assert (Hm0 : 0 <= shr_m mrs) by (rewrite Hm; apply Z.div_pos; lia).
  repeat split; try lia.
  - rewrite Binary64.shr_1_m by exact Hm0.
    rewrite Hm, Z.div_div by lia. f_equal; lia.
  - pose proof (Z.div_mod N D ltac:(lia)) as E.
    pose proof (Z.mod_pos_bound N D HD) as Hr.
    set (q := N / D) in *. set (r := N mod D) in *.
    pose proof (Z.div_mod q 2 ltac:(lia)) as E2.
    pose proof (Z.mod_pos_bound q 2 ltac:(lia)) as Hr2.
    assert (Hmod : N mod (2 * D) = (q mod 2) * D + r).
    { symmetry. set (b := q mod 2) in *. set (h := q / 2) in *.
      assert (Hb : b = 0 \/ b = 1) by lia.
      apply (Z.mod_unique_pos _ _ h); destruct Hb as [Hb|Hb]; rewrite Hb in *;
        nia. }
    rewrite Hmod. clear Hmod.
    destruct mrs as [m rb sb]. cbn [shr_m] in *. subst m.
    unfold loc_of in *.
    assert (Hbit : q mod 2 = 0 \/ q mod 2 = 1) by lia.
    assert (Hshape :
              shr_1 {| shr_m := q; shr_r := rb; shr_s := sb |}
              = {| shr_m := q / 2;
                   shr_r := negb (q mod 2 =? 0);
                   shr_s := rb || sb |}).
    { rewrite <- Z.div2_div. rewrite Zmod_odd, <- Z.negb_even.
      destruct q as [|[p|p|]|p]; try lia; cbn; reflexivity. }
    rewrite Hshape. clear Hshape.
    destruct Hbit as [Hb|Hb]; rewrite Hb;
      rewrite ?Z.mul_0_l, ?Z.mul_1_l, ?Z.add_0_l; cbn [Z.eqb negb].
    + destruct (r =? 0) eqn:Hr0.
      * destruct rb, sb; try discriminate Hl. reflexivity.
      * assert (Hs : rb || sb = true) by (destruct rb, sb; try reflexivity; discriminate Hl).
        rewrite Hs. cbn [loc_of_shr_record]. f_equal. symmetry.
        apply Z.eqb_neq in Hr0. apply Z.compare_lt_iff. lia.
    + assert (Hne : (D + r =? 0) = false) by (apply Z.eqb_neq; lia).
      rewrite Hne.
      destruct (r =? 0) eqn:Hr0.
      * apply Z.eqb_eq in Hr0.
        destruct rb, sb; try discriminate Hl. cbn [orb loc_of_shr_record].
        f_equal. symmetry. apply Z.compare_eq_iff. lia.
      * assert (Hs : rb || sb = true) by (destruct rb, sb; try reflexivity; discriminate Hl).
        rewrite Hs. cbn [loc_of_shr_record]. f_equal. symmetry.
        apply Z.eqb_neq in Hr0. apply Z.compare_gt_iff. lia.
Qed.

Lemma iter_shr_1_represents (p : positive) (mrs : shr_record) (N D : Z) :
  represents mrs N D ->
  represents (iter_pos shr_1 p mrs) N (2 ^ Z.pos p * D).
Proof.
  revert mrs D; induction p as [p IH|p IH|]; intros mrs D H; cbn [iter_pos].
  - apply shr_1_represents in H. apply IH in H. apply IH in H.
    replace (2 ^ Z.pos p~1 * D) with (2 ^ Z.pos p * (2 ^ Z.pos p * (2 * D)));
      [exact H|].
    replace (Z.pos p~1) with (Z.pos p + Z.pos p + 1) by lia.
    rewrite !Z.pow_add_r by lia. change (2 ^ 1) with 2. ring.
  - apply IH in H. apply IH in H.
    replace (2 ^ Z.pos p~0 * D) with (2 ^ Z.pos p * (2 ^ Z.pos p * D));
      [exact H|].
    replace (Z.pos p~0) with (Z.pos p + Z.pos p) by lia.
    rewrite !Z.pow_add_r by lia. ring.
  - apply shr_1_represents in H. exact H.
Qed.

(** Shifting to the canonical exponent keeps the number: the record stands
    for it in units of the new exponent. *)
Lemma shr_fexp_represents (N D e : Z) :
  0 <= N -> 0 < D ->
  e <= fexp prec emax (Zdigits2 (N / D) + e) ->
  let r := shr_fexp prec emax (N / D) e (loc_of (N mod D) D) in
  snd r = fexp prec emax (Zdigits2 (N / D) + e)
  /\ represents (fst r) N (2 ^ (snd r - e) * D).
Proof.
  intros HN HD He. cbv zeta.
  assert (H0 : represents (shr_record_of_loc (N / D) (loc_of (N mod D) D)) N D).
  { repeat split; try assumption.
    - apply Binary64.shr_record_of_loc_m.
    - apply loc_of_shr_record_of_loc. }
  unfold shr_fexp, shr.
  destruct (fexp prec emax (Zdigits2 (N / D) + e) - e) as [|k|k] eqn:Hk;
    try lia; cbn [fst snd].
  - split; [lia|]. replace (e - e) with 0 by lia.
    now rewrite Z.pow_0_r, Z.mul_1_l.
  - split; [lia|]. replace (e + Z.pos k - e) with (Z.pos k) by lia.
    now apply iter_shr_1_represents.
Qed.

(** Rounding to the nearest integer, ties to the even one: the rounded
    number is below [M] exactly when the number is below [M - 1/2], or is
    [M - 1/2] with [M] odd. *)
Lemma round_nearest_even_lt (mrs : shr_record) (N D M : Z) :
  represents mrs N D ->
  round_nearest_even (shr_m mrs) (loc_of_shr_record mrs) < M
  <-> 2 * N < (2 * M - 1) * D
      \/ (2 * N = (2 * M - 1) * D /\ Z.odd M = true).
Proof.
  intros (HN & HD & Hm & Hl). rewrite Hm, Hl.
  pose proof (Z.div_mod N D ltac:(lia)) as E.
  pose proof (Z.mod_pos_bound N D HD) as Hr.
  set (q := N / D) in *. set (r := N mod D) in *. clearbody q r.
  unfold loc_of. destruct (r =? 0) eqn:H0.
  - apply Z.eqb_eq in H0. cbn [round_nearest_even]. subst r N. split.
    + intros H. left. nia.
    + intros [H|[H _]]; nia.
  - apply Z.eqb_neq in H0.
    destruct (2 * r ?= D) eqn:Hc; cbn [round_nearest_even].
    + apply Z.compare_eq in Hc.
      assert (HN2 : 2 * N = (2 * q + 1) * D) by nia.
      destruct (Z.even q) eqn:Hev.
      * rewrite <- Z.negb_odd in Hev. apply negb_true_iff in Hev. split.
        { intros H. assert (Hq : q + 1 < M \/ q + 1 = M) by lia.
          destruct Hq as [Hq|Hq].
          - left. nia.
          - right. split; [subst M; nia|]. subst M.
            rewrite Z.odd_add, Hev. reflexivity. }
        intros [H|[H Hodd]]; nia.
      * rewrite <- Z.negb_odd in Hev. apply negb_false_iff in Hev. split.
        { intros H. left. nia. }
        intros [H|[H Hodd]]; [nia|].
        assert (Hq : M = q + 1) by nia. subst M.
        rewrite Z.odd_add, Hev in Hodd. discriminate.
    + rewrite Z.compare_lt_iff in Hc. split.
      * intros H. left. nia.
      * intros [H|[H _]]; nia.
    + rewrite Z.compare_gt_iff in Hc. split.
      * intros H. left. nia.
      * intros [H|[H _]]; nia.
Qed.

Lemma Zdigits2_succ (m : Z) :
  0 < m ->
  Zdigits2 (m + 1) = Zdigits2 m
  \/ (Zdigits2 (m + 1) = Zdigits2 m + 1 /\ m + 1 = 2 ^ Zdigits2 m).
Proof.
  intros Hm. pose proof (Binary64.Zdigits2_bounds m Hm) as Hb.
  rewrite !Binary64.Zdigits2_log2 in * by lia.
  replace (Z.log2 m + 1 - 1) with (Z.log2 m) in Hb by lia.
  pose proof (Z.log2_nonneg m) as Hl.
  destruct (Z.eq_dec (m + 1) (2 ^ (Z.log2 m + 1))) as [E|E].
  - right. split; [|exact E]. rewrite E, Z.log2_pow2 by lia. reflexivity.
  - left. f_equal. apply Z.log2_unique; [exact Hl|].
    rewrite <- Z.add_1_r. lia.
Qed.

(** After rounding, the second shift loses nothing: it is by one bit at
    most, and only of a power of two. *)
Lemma second_shift_exact (m1 m2 e1 : Z) :
  0 <= m1 ->
  (0 < m1 -> fexp prec emax (Zdigits2 m1 + e1) = e1) ->
  (m1 = 0 -> e1 = emin prec emax) ->
  m1 <= m2 <= m1 + 1 ->
  let e2 := fexp prec emax (Zdigits2 m2 + e1) in
  e1 <= e2 <= e1 + 1
  /\ m2 / 2 ^ (e2 - e1) * 2 ^ (e2 - e1) = m2.
Proof.
  intros H0 Hpos Hzero Hm2. cbv zeta.
  destruct (Z.eq_dec m1 0) as [->|Hn].
  - rewrite (Hzero eq_refl).
    assert (Hc : m2 = 0 \/ m2 = 1) by lia.
    destruct Hc as [->| ->]; vm_compute; repeat split; discriminate.
  - specialize (Hpos ltac:(lia)).
    destruct (Z.eq_dec m2 m1) as [->|Hne].
    + rewrite Hpos. replace (e1 - e1) with 0 by lia.
      rewrite Z.pow_0_r, Z.div_1_r. lia.
    + assert (E : m2 = m1 + 1) by lia. subst m2.
      destruct (Zdigits2_succ m1 ltac:(lia)) as [Hd|[Hd Hp]].
      * rewrite Hd, Hpos. replace (e1 - e1) with 0 by lia.
        rewrite Z.pow_0_r, Z.div_1_r. lia.
      * rewrite Hd. set (d := Zdigits2 m1) in *.
        assert (Hd1 : 0 < d).
        { subst d. rewrite Binary64.Zdigits2_log2 by lia.
          pose proof (Z.log2_nonneg m1). lia. }
        assert (He : fexp prec emax (d + 1 + e1) = e1
                     \/ fexp prec emax (d + 1 + e1) = e1 + 1).
        { clearbody d. unfold fexp, emin, prec, emax in *. lia. }
        destruct He as [-> | ->].
        { replace (e1 - e1) with 0 by lia.
          rewrite Z.pow_0_r, Z.div_1_r. lia. }
        replace (e1 + 1 - e1) with 1 by lia. change (2 ^ 1) with 2.
        split; [lia|]. rewrite Hp.
        replace d with (1 + (d - 1)) by lia.
        rewrite Z.pow_add_r by lia. change (2 ^ 1) with 2.
        set (h := 2 ^ (d - 1)).
        replace (2 * h / 2) with h; [ring|].
        symmetry. rewrite Z.mul_comm. apply Z.div_mul. lia.
Qed.

(** The quotient the conversion rounds, written out: [n] is shifted left by
    [s] bits, at most 1074, and divided by [d]. *)
Lemma SFdiv_core_binary_eq (n d : Z) :
  0 < n -> 0 < d ->
  exists s, 0 <= s <= 1074
    /\ SFdiv_core_binary prec emax n 0 d 0
       = (n * 2 ^ s / d, - s, loc_of ((n * 2 ^ s) mod d) d).
Proof.
  intros Hn Hd. unfold SFdiv_core_binary.
  set (e := Z.min (fexp prec emax (Zdigits2 n + 0 - (Zdigits2 d + 0))) (0 - 0)).
  assert (He : -1074 <= e <= 0).
  { subst e. set (k := Zdigits2 n + 0 - (Zdigits2 d + 0)). clearbody k.
    unfold fexp, emin, prec, emax. lia. }
  exists (0 - 0 - e). split; [lia|].
  set (s := 0 - 0 - e).
  assert (Hs : 0 <= s) by (subst s; lia).
  set (m' := match s with Z.pos _ => Z.shiftl n s | 0 => n | Z.neg _ => 0 end).
  assert (Hm' : m' = n * 2 ^ s).
  { subst m'. destruct s as [|p|p] eqn:E; [lia| |lia].
    now rewrite Z.shiftl_mul_pow2 by lia. }
  rewrite <- Hm'.
  assert (Hq : Z.div_eucl m' d = (m' / d, m' mod d)).
  { unfold Z.div, Z.modulo. now destruct (Z.div_eucl m' d). }
  rewrite Hq.
  rewrite new_location_spec by (apply Z.mod_pos_bound; exact Hd).
  repeat f_equal. subst s. lia.
Qed.

Section Bound.
Variable MB : positive.
Variable eB : Z.
Hypothesis HB : bounded prec emax MB eB = true.
Hypothesis HeB : emin prec emax < eB < emax - prec.
Hypothesis HBodd : Z.odd (Z.pos MB) = true.

Lemma bound_mantissa : 2 ^ 52 < Z.pos MB < 2 ^ 53.
Proof.
  destruct (Binary64.bounded_bounds MB eB HB) as (_ & Hlt & Hge).
  specialize (Hge ltac:(lia)).
  assert (Z.pos MB <> 2 ^ 52); [|lia].
  intros E. rewrite E in HBodd. discriminate HBodd.
Qed.

(** The arithmetic of the comparison.  [m1] is the integer part of
    [N / (A * D)], [m2] is [m1] rounded, in units of [2^e1]; the bound is
    [MB] in units of [2^eB]. *)
Lemma threshold_arith (N D m1 m2 e' e1 : Z) :
  0 < D -> emin prec emax <= e' <= e1 ->
  m1 * (2 ^ (e1 - e') * D) <= N < (m1 + 1) * (2 ^ (e1 - e') * D) ->
  m1 <= m2 <= m1 + 1 ->
  0 <= m1 < 2 ^ 53 ->
  (emin prec emax < e1 -> 2 ^ 52 <= m1) ->
  (m2 < Z.pos MB <-> 2 * N <= (2 * Z.pos MB - 1) * (2 ^ (e1 - e') * D)) ->
  m2 * 2 ^ (e1 - emin prec emax) < Z.pos MB * 2 ^ (eB - emin prec emax)
  <-> N * 2 ^ (e' - emin prec emax + 1)
      <= (2 * Z.pos MB - 1) * D * 2 ^ (eB - emin prec emax).
Proof.
  intros HD He HN Hm2 Hm1 Hnorm Hrne.
  pose proof bound_mantissa as HM.
  set (z := emin prec emax) in *.
  set (P := 2 ^ (e' - z)). set (A := 2 ^ (e1 - e')) in *.
  assert (HP : 0 < P) by (apply Z.pow_pos_nonneg; lia).
  assert (HA : 0 < A) by (apply Z.pow_pos_nonneg; lia).
  assert (E1 : 2 ^ (e1 - z) = A * P).
  { subst A P. rewrite <- Z.pow_add_r by lia. f_equal. lia. }
  assert (E2 : 2 ^ (e' - z + 1) = 2 * P).
  { subst P. rewrite Z.pow_add_r by lia. change (2 ^ 1) with 2. ring. }
  rewrite E1, E2.
  change (2 ^ 53) with 9007199254740992 in *.
  change (2 ^ 52) with 4503599627370496 in *.
  assert (HW : 0 < A * P) by (apply Z.mul_pos_pos; assumption).
  assert (EX : exists X, X = A * D) by eauto.
  destruct EX as [X EX]. rewrite <- EX in HN, Hrne.
  assert (HX : 0 < X) by (rewrite EX; apply Z.mul_pos_pos; assumption).
  assert (HNT : N < 9007199254740992 * X).
  { apply Z.lt_le_trans with ((m1 + 1) * X); [apply HN|].
    apply Z.mul_le_mono_nonneg_r; lia. }
  replace (N * (2 * P)) with (2 * N * P) by ring.
  destruct (Z.lt_trichotomy e1 eB) as [Hlt|[Heq|Hgt]].
  - (* the number is in a lower binade than the bound *)
    assert (HG : 2 <= 2 ^ (eB - e1)).
    { change 2 with (2 ^ 1) at 1. apply Z.pow_le_mono_r; lia. }
    assert (E3 : 2 ^ (eB - z) = A * P * 2 ^ (eB - e1)).
    { subst A P. rewrite <- !Z.pow_add_r by lia. f_equal. lia. }
    rewrite E3. set (G := 2 ^ (eB - e1)) in *. clearbody G.
    split; intros _.
    + replace ((2 * Z.pos MB - 1) * D * (A * P * G))
        with ((2 * Z.pos MB - 1) * G * X * P) by (rewrite EX; ring).
      apply Z.mul_le_mono_nonneg_r; [lia|].
      apply Z.le_trans with (2 * 9007199254740992 * X); [lia|].
      apply Z.mul_le_mono_nonneg_r; [lia|].
      apply Z.le_trans with ((2 * Z.pos MB - 1) * 2); [lia|].
      apply Z.mul_le_mono_nonneg_l; lia.
    + replace (Z.pos MB * (A * P * G)) with (Z.pos MB * G * (A * P)) by ring.
      apply Z.mul_lt_mono_pos_r; [exact HW|].
      apply Z.le_lt_trans with 9007199254740992; [lia|].
      apply Z.lt_le_trans with (Z.pos MB * 2); [lia|].
      apply Z.mul_le_mono_nonneg_l; lia.
  - (* the same binade *)
    rewrite <- Heq, E1.
    rewrite <- (Z.mul_lt_mono_pos_r (A * P)) by exact HW.
    rewrite Hrne.
    replace ((2 * Z.pos MB - 1) * D * (A * P))
      with ((2 * Z.pos MB - 1) * X * P) by (rewrite EX; ring).
    rewrite <- (Z.mul_le_mono_pos_r _ _ P) by exact HP. reflexivity.
  - (* the number is in a higher binade than the bound *)
    assert (HG : 2 <= 2 ^ (e1 - eB)).
    { change 2 with (2 ^ 1) at 1. apply Z.pow_le_mono_r; lia. }
    assert (HQ : 0 < 2 ^ (eB - z)) by (apply Z.pow_pos_nonneg; lia).
    assert (E3 : A * P = 2 ^ (eB - z) * 2 ^ (e1 - eB)).
    { subst A P. rewrite <- !Z.pow_add_r by lia. f_equal. lia. }
    specialize (Hnorm ltac:(lia)).
    set (G := 2 ^ (e1 - eB)) in *. set (Q := 2 ^ (eB - z)) in *.
    clearbody G Q.
    assert (HDQ : 0 < D * Q) by (apply Z.mul_pos_pos; assumption).
    split; intros Hc; exfalso.
    + rewrite E3 in Hc.
      assert (Hge : Z.pos MB * Q < m2 * (Q * G)); [|lia].
      apply Z.lt_le_trans with (9007199254740992 * Q).
      * apply Z.mul_lt_mono_pos_r; lia.
      * replace (m2 * (Q * G)) with (m2 * G * Q) by ring.
        apply Z.mul_le_mono_nonneg_r; [lia|].
        apply Z.le_trans with (4503599627370496 * 2); [lia|].
        apply Z.mul_le_mono_nonneg; lia.
    + assert (Hge : (2 * Z.pos MB - 1) * D * Q < 2 * N * P); [|lia].
      apply Z.lt_le_trans with (2 * 9007199254740992 * (D * Q)).
      * rewrite <- Z.mul_assoc. apply Z.mul_lt_mono_pos_r; lia.
      * apply Z.le_trans with (2 * (4503599627370496 * X) * P).
        -- replace (2 * (4503599627370496 * X) * P)
             with (9007199254740992 * D * (A * P)) by (rewrite EX; ring).
           rewrite E3.
           replace (9007199254740992 * D * (Q * G))
             with (9007199254740992 * (D * Q) * G) by ring.
           replace (2 * 9007199254740992 * (D * Q))
             with (9007199254740992 * (D * Q) * 2) by ring.
           apply Z.mul_le_mono_nonneg_l; lia.
        -- apply Z.mul_le_mono_nonneg_r; [lia|].
           apply Z.mul_le_mono_nonneg_l; [lia|].
           apply Z.le_trans with (m1 * X); [|apply HN].
           apply Z.mul_le_mono_nonneg_r; lia.
Qed.

(** Rounding against the bound.  The number [N / D * 2^e'] rounds to a
    binary64 number below the bound [MB * 2^eB] exactly when it is at most
    half a unit in the last place below the bound: the mantissa [MB] is odd,
    so the tie goes down. *)
Lemma round_lt_bound (N D e' : Z) :
  0 <= N -> 0 < D -> emin prec emax <= e' ->
  e' <= fexp prec emax (Zdigits2 (N / D) + e') ->
  SFltb (binary_round_aux prec emax false (N / D) e' (loc_of (N mod D) D))
        (S754_finite false MB eB)
  = (N * 2 ^ (e' - emin prec emax + 1)
     <=? (2 * Z.pos MB - 1) * D * 2 ^ (eB - emin prec emax)).
Proof.
  intros HN HD Hmin He.
  pose proof bound_mantissa as HM.
  assert (Hq : 0 <= N / D) by (apply Z.div_pos; lia).
  pose proof (shr_fexp_represents N D e' HN HD He) as H1. cbv zeta in H1.
  pose proof (Binary64.shr_fexp_canonical (N / D) e' (loc_of (N mod D) D) Hq He)
    as C1. cbv zeta in C1.
  unfold binary_round_aux.
  destruct (shr_fexp prec emax (N / D) e' (loc_of (N mod D) D)) as [mrs1 e1].
  cbn [fst snd] in H1, C1.
  destruct H1 as [He1 Hrep]. destruct C1 as (Hm1 & Hpos1 & Hzero1).
  assert (Hee : e' <= e1) by lia.
  pose proof (round_nearest_even_lt mrs1 N _ (Z.pos MB) Hrep) as Hlt.
  pose proof (Binary64.round_nearest_even_range (shr_m mrs1)
                (loc_of_shr_record mrs1)) as Hr.
  set (m1 := shr_m mrs1) in *.
  set (m2 := round_nearest_even m1 (loc_of_shr_record mrs1)) in *.
  pose proof (second_shift_exact m1 m2 e1 Hm1
                (fun H => proj2 (Hpos1 H)) Hzero1 Hr) as S2.
  cbv zeta in S2. destruct S2 as [He2 Hex].
  assert (Hm2 : 0 <= m2) by lia.
  assert (He2' : e1 <= fexp prec emax (Zdigits2 m2 + e1)) by lia.
  pose proof (Binary64.shr_fexp_spec m2 e1 loc_Exact Hm2 He2') as S3.
  pose proof (Binary64.shr_fexp_canonical m2 e1 loc_Exact Hm2 He2') as C3.
  cbv zeta in C3.
  destruct (shr_fexp prec emax m2 e1 loc_Exact) as [mrs2 e2].
  cbn [fst snd] in S3, C3. destruct S3 as [E2 E3].
  destruct C3 as (_ & Hpos3 & _).
  rewrite <- E2 in He2, Hex, E3. rewrite <- E3 in Hex. clear E2 E3 He2'.
  set (m3 := shr_m mrs2) in *.
  (* the record stands for N / (A * D) *)
  destruct Hrep as (_ & HAD & Hdiv & _). fold m1 in Hdiv.
  set (A := 2 ^ (e1 - e')) in *.
  assert (HA : 0 < A) by (apply Z.pow_pos_nonneg; lia).
  assert (Hbr : m1 * (A * D) <= N < (m1 + 1) * (A * D)).
  { pose proof (Z.div_mod N (A * D) ltac:(lia)) as E.
    pose proof (Z.mod_pos_bound N (A * D) HAD) as B.
    rewrite <- Hdiv in E. nia. }
  assert (Hm1b : 0 <= m1 < 2 ^ 53).
  { split; [exact Hm1|]. destruct (Z.eq_dec m1 0) as [->|Hn]; [lia|].
    destruct (Hpos1 ltac:(lia)) as [_ Hf].
    pose proof (Binary64.Zdigits2_bounds m1 ltac:(lia)) as [_ Hb].
    assert (Hd : Zdigits2 m1 <= 53).
    { clear - Hf. set (d := Zdigits2 m1) in *. clearbody d.
      unfold fexp, emin, prec, emax in *. lia. }
    pose proof (Binary64.Zdigits2_nonneg m1).
    assert (2 ^ Zdigits2 m1 <= 2 ^ 53) by (apply Z.pow_le_mono_r; lia).
    lia. }
  assert (Hnorm : emin prec emax < e1 -> 2 ^ 52 <= m1).
  { intros Hgt. destruct (Z.eq_dec m1 0) as [H0|Hn].
    - specialize (Hzero1 H0). lia.
    - destruct (Hpos1 ltac:(lia)) as [_ Hf].
      pose proof (Binary64.Zdigits2_bounds m1 ltac:(lia)) as [Hb _].
      assert (Hd : Zdigits2 m1 = 53).
      { clear - Hf Hgt. set (d := Zdigits2 m1) in *. clearbody d.
        unfold fexp, emin, prec, emax in *. lia. }
      rewrite Hd in Hb. exact Hb. }
  assert (Hrne : m2 < Z.pos MB
                 <-> 2 * N <= (2 * Z.pos MB - 1) * (A * D)).
  { rewrite Hlt. split.
    - intros [H|[H _]]; lia.
    - intros H. destruct (Z.eq_dec (2 * N) ((2 * Z.pos MB - 1) * (A * D)));
        [right; split; [assumption|exact HBodd]|left; lia]. }
  pose proof (threshold_arith N D m1 m2 e' e1 HD (conj Hmin Hee) Hbr Hr
                Hm1b Hnorm Hrne) as T.
  apply eq_iff_eq_true. rewrite Z.leb_le, <- T. clear T Hrne Hlt.
  assert (Hsc : m3 * 2 ^ (e2 - emin prec emax)
                = m2 * 2 ^ (e1 - emin prec emax)).
  { rewrite <- Hex. rewrite <- Z.mul_assoc, <- Z.pow_add_r by lia.
    do 2 f_equal. lia. }
  destruct m3 as [|p|p] eqn:Hm3.
  - (* rounded to zero *)
    split; [intros _|reflexivity].
    rewrite <- Hsc. apply Z.mul_pos_pos; [lia|].
    apply Z.pow_pos_nonneg; lia.
  - destruct (e2 <=? emax - prec) eqn:Hle.
    + (* a finite number *)
      apply Z.leb_le in Hle.
      assert (V : valid_binary prec emax (S754_finite false p e2) = true).
      { cbn [valid_binary]. unfold bounded, canonical_mantissa.
        destruct (Hpos3 ltac:(lia)) as [_ Hf]. cbn [Zdigits2] in Hf.
        rewrite Hf, Z.eqb_refl. cbn [andb]. now apply Z.leb_le. }
      rewrite Binary64.SFltb_scaled by (assumption || reflexivity).
      cbn [scaled]. rewrite Hsc, Z.ltb_lt. reflexivity.
    + (* overflow *)
      apply Z.leb_gt in Hle.
      change (SFltb (S754_infinity false) (S754_finite false MB eB))
        with false.
      split; [discriminate|]. intros H. exfalso.
      assert (Hgt : eB < e1) by lia.
      specialize (Hnorm ltac:(lia)).
      set (z := emin prec emax) in *.
      assert (E : 2 ^ (e1 - z) = 2 ^ (e1 - eB) * 2 ^ (eB - z)).
      { rewrite <- Z.pow_add_r by lia. f_equal. lia. }
      assert (HG : 2 <= 2 ^ (e1 - eB)).
      { change 2 with (2 ^ 1) at 1. apply Z.pow_le_mono_r; lia. }
      assert (HQ : 0 < 2 ^ (eB - z)) by (apply Z.pow_pos_nonneg; lia).
      rewrite E in H.
      change (2 ^ 52) with 4503599627370496 in *.
      change (2 ^ 53) with 9007199254740992 in *.
      set (G := 2 ^ (e1 - eB)) in *. set (Q := 2 ^ (eB - z)) in *.
      clearbody G Q. nia.
  - lia.
Qed.
(** The decimal [m * 10^e] rounds to a binary64 number below the bound
    exactly when it is at most the bound less half a unit in its last
    place. *)
Lemma decimal_lt_bound (m e : Z) :
  0 <= m ->
  SFltb (binary64_of_decimal false m e) (S754_finite false MB eB)
  = (m * 10 ^ Z.max e 0 * 2 ^ 1075
     <=? (2 * Z.pos MB - 1) * 10 ^ Z.max (- e) 0 * 2 ^ (eB + 1074)).
Proof.
  intros Hm. unfold binary64_of_decimal.
  assert (Hd : 0 < 10 ^ Z.max (- e) 0) by lia.
  assert (HQ : 0 < 2 ^ (eB + 1074)).
  { apply Z.pow_pos_nonneg; [lia|]. unfold emin, prec, emax in HeB. lia. }
  destruct (m =? 0) eqn:H0.
  - apply Z.eqb_eq in H0. subst m. symmetry. apply Z.leb_le.
    rewrite !Z.mul_0_l.
    pose proof bound_mantissa. nia.
  - apply Z.eqb_neq in H0.
    assert (Hn : 0 < m * 10 ^ Z.max e 0) by (apply Z.mul_pos_pos; lia).
    set (n := m * 10 ^ Z.max e 0) in *. set (d := 10 ^ Z.max (- e) 0) in *.
    pose proof (Binary64.SFdiv_core_binary_spec n d Hn Hd) as Hspec.
    destruct (SFdiv_core_binary_eq n d Hn Hd) as (s & Hs & E).
    rewrite E in *. destruct Hspec as [_ Hf].
    rewrite (round_lt_bound (n * 2 ^ s) d (- s));
      [|nia|exact Hd|unfold emin, prec, emax; lia|exact Hf].
    change (emin prec emax) with (-1074).
    replace (- s - -1074 + 1) with (1075 - s) by lia.
    replace (eB - -1074) with (eB + 1074) by lia.
    rewrite <- Z.mul_assoc, <- Z.pow_add_r by lia.
    replace (s + (1075 - s)) with 1075 by lia. reflexivity.
Qed.
End Bound.

(** The sign of the decimal is the sign of the number. *)
Lemma binary_round_aux_opp (q e : Z) (l : location) :
  binary_round_aux prec emax true q e l
  = SFopp (binary_round_aux prec emax false q e l).
Proof.
  unfold binary_round_aux.
  destruct (shr_fexp prec emax q e l) as [mrs1 e1].
  destruct (shr_fexp prec emax _ e1 loc_Exact) as [mrs2 e2].
  destruct (shr_m mrs2); [reflexivity| |reflexivity].
  destruct (e2 <=? emax - prec); reflexivity.
Qed.

Lemma binary64_of_decimal_opp (m e : Z) :
  binary64_of_decimal true m e = SFopp (binary64_of_decimal false m e).
Proof.
  unfold binary64_of_decimal. destruct (m =? 0); [reflexivity|].
  destruct (SFdiv_core_binary prec emax _ 0 _ 0) as [[q e'] loc].
  apply binary_round_aux_opp.
Qed.

Lemma binary64_of_decimal_sign_clear (m e : Z) :
  sign_clear (binary64_of_decimal false m e).
Proof.
  unfold binary64_of_decimal. destruct (m =? 0); [reflexivity|].
  destruct (SFdiv_core_binary prec emax _ 0 _ 0) as [[q e'] loc].
  unfold binary_round_aux.
  destruct (shr_fexp prec emax q e' loc) as [mrs1 e1].
  destruct (shr_fexp prec emax _ e1 loc_Exact) as [mrs2 e2].
  destruct (shr_m mrs2); [reflexivity| |exact I].
  destruct (e2 <=? emax - prec); reflexivity.
Qed.

(** The two comparisons of line 11 on a number and on its opposite: both
    come to one comparison of the magnitude with the positive bound. *)
Lemma two_sided_test (a : float) (MB : positive) (eB : Z) (neg : bool) :
  sign_clear a ->
  let B := S754_finite false MB eB in
  let l := if neg then SFopp a else a in
  float_gt l (float_neg B) && float_lt l B = SFltb a B.
Proof.
  intros Ha. cbv zeta. unfold float_gt, float_lt, float_neg.
  destruct neg.
  - rewrite SFltb_opp_opp.
    destruct a as [s|s| |s m e]; cbn in Ha; try subst s; try reflexivity.
    cbn [SFopp negb].
    change (SFltb (S754_finite true m e) (S754_finite false MB eB))
      with true.
    now rewrite andb_true_r.
  - destruct a as [s|s| |s m e]; cbn in Ha; try subst s; reflexivity.
Qed.

(** The bounds of the footprint, and what lies half a unit in the last place
    below each: [13961158844848537 / 2^52] and [16212958658533785 / 2^53]. *)
Lemma lit_3_1_bits : lit_3_1 = S754_finite false 6980579422424269 (-51).
Proof. vm_compute. reflexivity. Qed.

Lemma lit_1_8_bits : lit_1_8 = S754_finite false 8106479329266893 (-52).
Proof. vm_compute. reflexivity. Qed.

Lemma lt_lit_3_1 (m e : Z) :
  0 <= m ->
  SFltb (binary64_of_decimal false m e) (S754_finite false 6980579422424269 (-51))
  = within m e 13961158844848537 52.
Proof.
  intros Hm.
  rewrite decimal_lt_bound;
    [|reflexivity|unfold emin, prec, emax; lia|reflexivity|exact Hm].
  unfold within. apply eq_iff_eq_true. rewrite !Z.leb_le.
  change (2 * Z.pos 6980579422424269 - 1) with 13961158844848537.
  change (-51 + 1074) with 1023.
  replace (2 ^ 1075) with (2 ^ 52 * 2 ^ 1023) by reflexivity.
  assert (HP : 0 < 2 ^ 1023) by (apply Z.pow_pos_nonneg; lia).
  set (P := 2 ^ 1023) in *. set (n := m * 10 ^ Z.max e 0).
  set (d := 10 ^ Z.max (- e) 0). clearbody P n d.
  rewrite Z.mul_assoc. symmetry. apply Z.mul_le_mono_pos_r. exact HP.
Qed.

Lemma lt_lit_1_8 (m e : Z) :
  0 <= m ->
  SFltb (binary64_of_decimal false m e) (S754_finite false 8106479329266893 (-52))
  = within m e 16212958658533785 53.
Proof.
  intros Hm.
  rewrite decimal_lt_bound;
    [|reflexivity|unfold emin, prec, emax; lia|reflexivity|exact Hm].
  unfold within. apply eq_iff_eq_true. rewrite !Z.leb_le.
  change (2 * Z.pos 8106479329266893 - 1) with 16212958658533785.
  change (-52 + 1074) with 1022.
  replace (2 ^ 1075) with (2 ^ 53 * 2 ^ 1022) by reflexivity.
  assert (HP : 0 < 2 ^ 1022) by (apply Z.pow_pos_nonneg; lia).
  set (P := 2 ^ 1022) in *. set (n := m * 10 ^ Z.max e 0).
  set (d := 10 ^ Z.max (- e) 0). clearbody P n d.
  rewrite Z.mul_assoc. symmetry. apply Z.mul_le_mono_pos_r. exact HP.
Qed.

(** The test of line 11 on the binary64 numbers of two decimals. *)
Lemma in_footprint_decimal (sl sb : bool) (ml el mb eb : Z) :
  0 <= ml -> 0 <= mb ->
  in_footprint (binary64_of_decimal sl ml el) (binary64_of_decimal sb mb eb)
  = within ml el 13961158844848537 52 && within mb eb 16212958658533785 53.
Proof.
  intros Hl Hb. unfold in_footprint. rewrite lit_3_1_bits, lit_1_8_bits.
  pose proof (two_sided_test _ 6980579422424269 (-51) sl
                (binary64_of_decimal_sign_clear ml el)) as T1.
  pose proof (two_sided_test _ 8106479329266893 (-52) sb
                (binary64_of_decimal_sign_clear mb eb)) as T2.
  cbv zeta in T1, T2.
  rewrite lt_lit_3_1 in T1 by exact Hl. rewrite lt_lit_1_8 in T2 by exact Hb.
  destruct sl, sb; cbv beta iota zeta in T1, T2;
    rewrite ?binary64_of_decimal_opp, T1, T2; reflexivity.
Qed.

Lemma parse_decimal_exact_spec (s : string) :
  match parse_decimal_exact s with
  | Some (neg, m, e, rest) =>
      0 <= m /\ parse_decimal s = Some (binary64_of_decimal neg m e, rest)
  | None => parse_decimal s = None
  end.
Proof.
  unfold parse_decimal_exact, parse_decimal.
  destruct (parse_sign s) as [neg s1].
  pose proof (Binary64.span_all is_digit s1) as Hip.
  destruct (span is_digit s1) as [ip s2]. cbn [fst] in Hip.
  pose proof (Binary64.fraction_digits s2) as Hfp.
  destruct (match s2 with
            | String "." t => span is_digit t
            | _ => (EmptyString, s2)
            end) as [fp s3].
  specialize (Hfp fp s3 eq_refl).
  destruct (ip ++ fp) as [|c ds] eqn:Hds; [reflexivity|].
  destruct (parse_exponent s3) as [ex s4]. split; [|reflexivity].
  unfold Z_of_digits.
  apply Binary64.Z_of_digits_acc_nonneg; [lia|].
  rewrite <- Hds, Binary64.all_chars_app. now rewrite Hip, Hfp.
Qed.

(** [float] on a string that is a decimal number gives the binary64 number
    of that decimal. *)
Lemma decimal_of_string_float (s : string) (neg : bool) (m e : Z) :
  decimal_of_string s = Some (neg, m, e) ->
  0 <= m /\ float_of_string s = Some (binary64_of_decimal neg m e).
Proof.
  unfold decimal_of_string, float_of_string.
  destruct (remove_underscores NUL s) as [s0|]; [|discriminate].
  cbv zeta. pose proof (parse_decimal_exact_spec (skip_spaces s0)) as H.
  destruct (parse_decimal_exact (skip_spaces s0)) as [[[[n m'] e'] rest]|];
    [|discriminate].
  destruct H as [Hm ->].
  destruct (skip_spaces rest); [|discriminate].
  intros [= -> -> ->]. split; [exact Hm|reflexivity].
Qed.

(** On any other string [float] raises, or gives an infinity or a NaN. *)
Lemma decimal_of_string_none (s : string) :
  decimal_of_string s = None ->
  match float_of_string s with
  | Some x => is_finite x = false
  | None => True
  end.
Proof.
  unfold decimal_of_string, float_of_string.
  destruct (remove_underscores NUL s) as [s0|]; [|intros _; exact I].
  cbv zeta. pose proof (parse_decimal_exact_spec (skip_spaces s0)) as H.
  destruct (parse_decimal_exact (skip_spaces s0)) as [[[[n m'] e'] rest]|].
  - destruct H as [_ ->].
    destruct (skip_spaces rest); [discriminate|]. intros _. exact I.
  - rewrite H. intros _. unfold parse_inf_or_nan.
    destruct (parse_sign (skip_spaces s0)) as [neg s1].
    destruct (match_nocase "inf" s1) as [s2|].
    + destruct (match_nocase "inity" s2) as [s3|];
        match goal with
        | |- context [skip_spaces ?r] => destruct (skip_spaces r)
        end; (exact I || reflexivity).
    + destruct (match_nocase "nan" s1) as [s2|]; [|exact I].
      destruct (skip_spaces s2); (exact I || reflexivity).
Qed.

Lemma in_footprint_not_finite_l (l b : float) :
  is_finite l = false -> in_footprint l b = false.
Proof.
  unfold in_footprint. rewrite lit_3_1_bits.
  destruct l as [s|[]| |s m e]; try discriminate; intros _; reflexivity.
Qed.

Lemma in_footprint_not_finite_b (l b : float) :
  is_finite b = false -> in_footprint l b = false.
Proof.
  unfold in_footprint. rewrite lit_1_8_bits.
  destruct b as [s|[]| |s m e]; try discriminate; intros _;
    cbn [andb]; rewrite ?andb_false_r; reflexivity.
Qed.

Lemma counted_decimal (line : string) : counted line = counted_exact line.
Proof.
  unfold counted, counted_exact. f_equal.
  destruct (split " " line) as [|f0 [|f1 rest]]; try reflexivity.
  destruct (decimal_of_string f0) as [[[sl ml] el]|] eqn:D0.
  - destruct (decimal_of_string_float _ _ _ _ D0) as [Hl ->].
    destruct (decimal_of_string f1) as [[[sb mb] eb]|] eqn:D1.
    + destruct (decimal_of_string_float _ _ _ _ D1) as [Hb ->].
      now apply in_footprint_decimal.
    + pose proof (decimal_of_string_none _ D1) as N1.
      destruct (float_of_string f1) as [b|]; [|reflexivity].
      now apply in_footprint_not_finite_b.
  - pose proof (decimal_of_string_none _ D0) as N0.
    destruct (float_of_string f0) as [l|]; [|reflexivity].
    destruct (float_of_string f1) as [b|]; [|reflexivity].
    now apply in_footprint_not_finite_l.
Qed.

(** X14: which lines are counted, by the decimal numbers written in them.
    A data line is counted exactly when its first two fields are decimal
    numbers [l] and [b] with [|l| <= 13961158844848537 / 2^52] and
    [|b| <= 16212958658533785 / 2^53]: the bounds 3.1 and 1.8 of line 11
    as binary64 numbers, less half a unit in the last place.  The loop adds
    one to the count on such a line and nothing on any other line it gets
    through.  So a field within that half unit of a bound, such as
    [3.0999999999999999], is rounded to the bound and its line is not
    counted, and the signs of the two fields make no difference. *)
Theorem counted_by_decimal (line : string) :
  counted line = counted_exact line
  /\ (well_formed line = true ->
      forall (c : Z) (out : string),
        body line (mkState (Some c) out)
        = (Return tt,
           mkState (Some (if counted_exact line then c + 1 else c)) out)).
Proof.
  split; [apply counted_decimal|].
  intros Hwf c out. rewrite body_line_delta.
  apply well_formed_delta in Hwf. destruct Hwf as [d Hd].
  pose proof (line_delta_counted line) as Hc. rewrite Hd in *.
  subst d. rewrite counted_decimal.
  destruct (counted_exact line); [reflexivity|now rewrite Z.add_0_r].
Qed.

(** The two thresholds: a field at the threshold is counted, a field one
    digit in the last place above it is not. *)
Example counted_at_the_thresholds :
  map counted
    ["3.0999999999999998667732370449812151491641998291015625 0";
     "3.0999999999999998667732370449812151491641998291015626 0";
     "0 -1.79999999999999993338661852249060757458209991455078125";
     "0 -1.79999999999999993338661852249060757458209991455078126";
     "-30999999999999998e-16 +1_7.99e-1"; "3.1 0"; "0 1.8"; "1e400 0"]
  = [true; false; true; false; true; false; false; false].
Proof. vm_compute. reflexivity. Qed.

(** ** The script as a whole *)

(** The script on an empty file prints that there are 0 grid points; on a
    file of one line with one field it ends with an uncaught exception
    before it prints; and when the file cannot be opened it ends with
    [OSError], nothing printed. *)
Example main_examples :
  main (Some "") fresh =
    (Return tt,
     mkState (Some 0)
       ("There are 0 grid points within the JASMINE extended footprint"
        ++ nl))
  /\ main (Some ("1.5" ++ nl)) fresh
     = (Raise IndexError, mkState (Some 0) "")
  /\ main (Some ("abc" ++ nl)) fresh
     = (Raise ValueError, mkState (Some 0) "")
  /\ main None fresh = (Raise OSError, mkState (Some 0) "").
Proof. vm_compute. repeat split; reflexivity. Qed.
